(** * Conversation agent: request identity, run state and the review pipeline

    A shallow embedding of [v2/conversation_agent/conversation_agent.py]
    (with the data contracts of [schemas.py]) and the properties of its
    deterministic layer around the language-model calls.

    Conventions of the embedding:
    - a Python [str] is a Rocq [string] whose characters are the code points
      0..255; [isdigit], [isspace] and [lower] are Python's on that range;
    - Python [int] is [N] or [Z] (unbounded);
    - pydantic models are records, [Literal] enumerations are inductive types;
    - the language model behind [with_structured_output] is a record of
      functions that may fail; every property quantifies over all of them;
    - the directory tree under [RUNS_DIR] and the [.current_run] pointer are
      an explicit state, threaded through a state-and-exception monad;
    - the state holds the base directory one level deep, which is what the
      two scans of the agent read: its entries by name, and for a
      sub-directory the four files the agent knows. A string that the agent
      joins to the base directory as a path stands for the entry of that name
      when it is a single path component ([single_component]); a
      [request_id] or a pointer that is a longer path, ".", ".." or empty
      leads elsewhere on a real disk, and the properties that relate a file
      written or read under such a name to a scan or a lookup of the base
      directory assume a single component;
    - an exception is named by the class written at the [raise]; Python's
      classes are not disjoint ([EnvironmentError] is [OSError],
      [FileExistsError] and [FileNotFoundError] are subclasses of it,
      [JSONDecodeError] is a subclass of [ValueError]), so the properties
      say which exception a given situation raises, not which situation a
      given exception reveals;
    - a JSON file holds the document that was dumped into it. *)

From Stdlib Require Import Ascii String DecimalString DecimalN DecimalZ.
From stdpp Require Import gmap strings list fin_maps.

Local Open Scope string_scope.

(** ** Python strings *)

Module PyStr.

Definition code (c : ascii) : nat := nat_of_ascii c.

(** [str.isdigit] on one character: the decimal digits and the
    superscript digits U+00B2, U+00B3, U+00B9. *)
Definition isdigit_char (c : ascii) : bool :=
  let n := code c in
  ((48 <=? n)%nat && (n <=? 57)%nat)
  || (n =? 178)%nat || (n =? 179)%nat || (n =? 185)%nat.

(** [str.isspace] on one character: TAB..CR, FS..US, SPACE, NEL, NBSP. *)
Definition isspace_char (c : ascii) : bool :=
  let n := code c in
  ((9 <=? n)%nat && (n <=? 13)%nat)
  || ((28 <=? n)%nat && (n <=? 32)%nat)
  || (n =? 133)%nat || (n =? 160)%nat.

(** [str.lower] on one character: A..Z and the accented capitals
    U+00C0..U+00DE (the multiplication sign U+00D7 excepted). *)
Definition lower_char (c : ascii) : ascii :=
  let n := code c in
  if ((65 <=? n)%nat && (n <=? 90)%nat)
     || ((192 <=? n)%nat && (n <=? 222)%nat && negb (n =? 215)%nat)
  then ascii_of_nat (n + 32) else c.

Fixpoint all_chars (p : ascii -> bool) (s : string) : bool :=
  match s with
  | EmptyString => true
  | String c s' => p c && all_chars p s'
  end.

(** [s.isdigit()]: at least one character, and all of them digits. *)
Definition isdigit (s : string) : bool :=
  match s with
  | EmptyString => false
  | _ => all_chars isdigit_char s
  end.

Fixpoint lower (s : string) : string :=
  match s with
  | EmptyString => EmptyString
  | String c s' => String (lower_char c) (lower s')
  end.

(** [s.lstrip()] *)
Fixpoint lstrip (s : string) : string :=
  match s with
  | EmptyString => EmptyString
  | String c s' => if isspace_char c then lstrip s' else s
  end.

(** [s.rstrip()] *)
Fixpoint rstrip (s : string) : string :=
  match s with
  | EmptyString => EmptyString
  | String c s' =>
      match rstrip s' with
      | EmptyString => if isspace_char c then EmptyString else String c EmptyString
      | r => String c r
      end
  end.

(** [s.strip()] *)
Definition strip (s : string) : string := rstrip (lstrip s).

(** The slice [s[n:]]. *)
Fixpoint drop (n : nat) (s : string) : string :=
  match n, s with
  | O, _ => s
  | S n', String _ s' => drop n' s'
  | S _, EmptyString => EmptyString
  end.

(** [s.startswith(p)] *)
Definition startswith (s p : string) : bool := String.prefix p s.

(** Truthiness of a string: non-empty. *)
Definition truthy (s : string) : bool :=
  match s with EmptyString => false | _ => true end.

(** [int(s)] for a string that passed [isdigit]: a decimal numeral is
    read (leading zeros allowed), any other digit character makes [int]
    raise [ValueError], here [None]. *)
Definition int (s : string) : option N :=
  match s with
  | EmptyString => None
  | _ => N.of_uint <$> NilEmpty.uint_of_string s
  end.

(** [str(n)] for a natural number. *)
Definition of_N (n : N) : string := NilEmpty.string_of_uint (N.to_uint n).

(** [str(z)] for an integer. *)
Definition of_Z (z : Z) : string := NilZero.string_of_int (Z.to_int z).

Fixpoint zeros (k : nat) : string :=
  match k with
  | O => EmptyString
  | S k' => String "0" (zeros k')
  end.

(** The format [f"{n:03d}"]: decimal, padded with zeros on the left to a
    width of at least three. *)
Definition format_03d (n : N) : string :=
  let s := of_N n in zeros (3 - String.length s) ++ s.

End PyStr.

(** ** Data contracts ([schemas.py]) *)

(** [Literal["explain", "revise", "both"]] *)
Inductive Intent := explain | revise | both.

(** [Literal["clean", "ambiguous"]] *)
Inductive PrdType := clean | ambiguous.

Record GenerationConstraints := {
  temperature : Z;
  allow_regeneration : bool;
  include_duplicate_scan : bool
}.

Record GenerationArtifacts := {
  existing_suite_index_path : option string
}.

(** [mode: Literal["generate"]] has a single value and is left out. *)
Record GenerationRequest := {
  gen_request_id : string;
  prd_source : string;
  prd_type : PrdType;
  constraints : GenerationConstraints;
  artifacts : GenerationArtifacts
}.

Record RequestedChange := {
  target_id : string;
  field : string;
  new_value : string;
  reason : string
}.

Record RejectedChange := {
  rej_target_id : string;
  rej_field : string;
  rej_reason : string
}.

Record RevisionPolicy := {
  delta_only : bool;
  disallow_unrequested_changes : bool
}.

(** [mode: Literal["revise"]] and [target_artifact: Literal["test_plan"]]
    have a single value and are left out. *)
Record RevisionRequest := {
  rev_request_id : string;
  intent : Intent;
  requested_changes : list RequestedChange;
  explanation_targets : list string;
  rejected_changes : list RejectedChange;
  policy : RevisionPolicy
}.

Record ChangeScope := {
  scope_target_id : string;
  allowed_fields : list string
}.

Record ExecutionPlan := {
  change_scope : list ChangeScope;
  forbidden_changes : list string;
  validation_profile : list string
}.

(** [output["request_id"] = ...; output["prd_source"] = ...] on the dumped
    model. *)
Definition pin_generation (request_id source : string) (g : GenerationRequest)
  : GenerationRequest :=
  {| gen_request_id := request_id;
     prd_source := source;
     prd_type := prd_type g;
     constraints := constraints g;
     artifacts := artifacts g |}.

(** [output["request_id"] = rev_request_id] *)
Definition pin_revision (request_id : string) (r : RevisionRequest)
  : RevisionRequest :=
  {| rev_request_id := request_id;
     intent := intent r;
     requested_changes := requested_changes r;
     explanation_targets := explanation_targets r;
     rejected_changes := rejected_changes r;
     policy := policy r |}.

(** The two constants injected into every execution plan. *)
Definition FORBIDDEN_CHANGES : list string :=
  ["req_id"; "tc_id"; "objective"; "type"; "surface"].

Definition VALIDATION_PROFILE : list string :=
  ["schema"; "cross_ref"; "delta"; "rationale"].

(** [ep_output["forbidden_changes"] = [...]; ep_output["validation_profile"] = [...]] *)
Definition inject_constants (p : ExecutionPlan) : ExecutionPlan :=
  {| change_scope := change_scope p;
     forbidden_changes := FORBIDDEN_CHANGES;
     validation_profile := VALIDATION_PROFILE |}.

(** ** Caller-side values *)

(** A value of the [run_config] dict (scalars). *)
Inductive PyVal :=
| PyNone
| PyBool (b : bool)
| PyInt (z : Z)
| PyStr (s : string).

(** [str(v)] *)
Definition py_str (v : PyVal) : string :=
  match v with
  | PyNone => "None"
  | PyBool true => "True"
  | PyBool false => "False"
  | PyInt z => PyStr.of_Z z
  | PyStr s => s
  end.

(** The current artifact set of a review call, as far as the agent and its
    contract look into it: the originating run's [request_id], when the dict
    has one, and the identifiers of its requirements and test cases. *)
Record Artifacts := {
  art_request_id : option string;
  art_req_ids : list string;
  art_tc_ids : list string
}.

(** The two shapes of the text [_format_suite_path] returns: the quoted path,
    or the instruction to use JSON null. *)
Inductive SuitePathText :=
| QuotedPath (path : string)
| NullInstruction.

Definition _format_suite_path (path : option string) : SuitePathText :=
  match path with
  | Some p => if PyStr.truthy p then QuotedPath p else NullInstruction
  | None => NullInstruction
  end.

(** ** The language model *)

(** Template variables of [generation_prompt]. *)
Record GenerationInput := {
  in_prd_text : string;
  in_prd_source : string;
  in_today : string;
  in_include_duplicate_scan : string;
  in_existing_suite_index_path : SuitePathText
}.

(** Template variables of [revision_prompt]. *)
Record RevisionInput := {
  in_reviewer_message : string;
  in_current_artifacts : Artifacts;
  in_intent : Intent;
  in_rev_today : string;
  in_seq : string;
  in_decision_log : list string
}.

(** The four LCEL chains. A chain answers with a value of its schema, or
    fails ([None]: the call raises). Nothing else is known about it. *)
Record Oracle := {
  generation_chain : GenerationInput -> option GenerationRequest;
  intent_chain : string -> option Intent;
  revision_chain : RevisionInput -> option RevisionRequest;
  ep_chain : list RequestedChange -> option ExecutionPlan
}.

Inductive Chain := GenerationChain | IntentChain | RevisionChain | PlanChain.

(** The process environment: the API key and the system date as
    [_today()] formats it. *)
Record Env := {
  OPENAI_API_KEY : option string;
  today : string
}.

(** ** Persisted state *)

(** What a JSON file holds. [Malformed] is a file [json.loads] rejects. *)
Inductive JsonDoc :=
| Malformed
| DocGeneration (g : GenerationRequest)
| DocRevision (r : RevisionRequest)
| DocPlan (p : ExecutionPlan)
| DocArtifacts (a : Artifacts).

(** A run directory [runs/<name>/] with the four files the agent knows. *)
Record RunDir := {
  prd_md : option string;
  generation_request_json : option JsonDoc;
  revision_request_json : option JsonDoc;
  execution_plan_json : option JsonDoc
}.

Definition empty_dir : RunDir :=
  {| prd_md := None; generation_request_json := None;
     revision_request_json := None; execution_plan_json := None |}.

(** An entry of the base directory: a regular file or a directory. *)
Inductive Entry :=
| EFile
| EDir (d : RunDir).

Inductive Event :=
| Mkdir (name : string)
| WriteFile (name file : string)
| WritePointer (content : string)
| Invoke (c : Chain)
| Print (p : ExecutionPlan).

(** [runs_base] is [None] while the base directory does not exist;
    [current_run] is the content of [.current_run] in its parent;
    [trace] lists the effects performed so far, oldest first. *)
Record World := {
  runs_base : option (gmap string Entry);
  current_run : option string;
  trace : list Event
}.

(** The exceptions the agent raises, each named by the class written at the
    [raise] (or raised by the library call). [EnvironmentError] is the one
    [_get_llm] raises; in Python it is an alias of [OSError], the parent of
    [FileNotFoundError] and [FileExistsError]. *)
Inductive Exn :=
| ValueError
| RuntimeError
| FileNotFoundError
| FileExistsError
| EnvironmentError
| JSONDecodeError
| OracleFailure.

Inductive Outcome (A : Type) :=
| Return (a : A)
| Raise (e : Exn).
Arguments Return {A} a.
Arguments Raise {A} e.

(** State and exceptions. *)
Definition M (A : Type) : Type := World -> World * Outcome A.

#[export] Instance M_ret : MRet M := fun A a w => (w, Return a).

#[export] Instance M_bind : MBind M := fun A B f m w =>
  match m w with
  | (w', Return a) => f a w'
  | (w', Raise e) => (w', Raise e)
  end.

Definition raise {A} (e : Exn) : M A := fun w => (w, Raise e).

Definition get : M World := fun w => (w, Return w).

Definition emit (e : Event) : M unit := fun w =>
  ({| runs_base := runs_base w; current_run := current_run w;
      trace := trace w ++ [e] |}, Return tt).

Definition put_runs (m : gmap string Entry) : M unit := fun w =>
  ({| runs_base := Some m; current_run := current_run w; trace := trace w |},
   Return tt).

Definition put_pointer (s : string) : M unit := fun w =>
  ({| runs_base := runs_base w; current_run := Some s; trace := trace w |},
   Return tt).

(** ** File-system actions *)

Definition entries (w : World) : gmap string Entry := default ∅ (runs_base w).

Definition is_dir (e : Entry) : bool :=
  match e with EDir _ => true | EFile => false end.

(** [run_dir.mkdir(parents=True, exist_ok=True)] for [run_dir = runs_base /
    name] with [name] a single path component: creates the directory (and
    the base directory) when absent, accepts an existing directory, and
    raises [FileExistsError] on a regular file of that name. *)
Definition mkdir (name : string) : M unit :=
  w ← get;
  match entries w !! name with
  | Some EFile => raise FileExistsError
  | Some (EDir _) => emit (Mkdir name)
  | None => put_runs (<[name := EDir empty_dir]> (entries w));; emit (Mkdir name)
  end.

(** [(run_dir / file).write_text(...)] *)
Definition write_file (name file : string) (upd : RunDir -> RunDir) : M unit :=
  w ← get;
  match entries w !! name with
  | Some (EDir d) =>
      put_runs (<[name := EDir (upd d)]> (entries w));; emit (WriteFile name file)
  | _ => raise FileNotFoundError
  end.

Definition set_prd_md (text : string) (d : RunDir) : RunDir :=
  {| prd_md := Some text;
     generation_request_json := generation_request_json d;
     revision_request_json := revision_request_json d;
     execution_plan_json := execution_plan_json d |}.

Definition set_generation_request_json (doc : JsonDoc) (d : RunDir) : RunDir :=
  {| prd_md := prd_md d;
     generation_request_json := Some doc;
     revision_request_json := revision_request_json d;
     execution_plan_json := execution_plan_json d |}.

Definition set_revision_request_json (doc : JsonDoc) (d : RunDir) : RunDir :=
  {| prd_md := prd_md d;
     generation_request_json := generation_request_json d;
     revision_request_json := Some doc;
     execution_plan_json := execution_plan_json d |}.

Definition set_execution_plan_json (doc : JsonDoc) (d : RunDir) : RunDir :=
  {| prd_md := prd_md d;
     generation_request_json := generation_request_json d;
     revision_request_json := revision_request_json d;
     execution_plan_json := Some doc |}.

(** [(project_root / ".current_run").write_text(...)] *)
Definition write_pointer (content : string) : M unit :=
  put_pointer content;; emit (WritePointer content).

Definition newline : string := String (ascii_of_nat 10) EmptyString.

(** ** Internal helpers *)

(** [_get_llm]: raises [EnvironmentError] when the key is missing or empty. *)
Definition _get_llm (env : Env) : M unit :=
  match OPENAI_API_KEY env with
  | Some key => if PyStr.truthy key then mret tt else raise EnvironmentError
  | None => raise EnvironmentError
  end.

(** [chain.invoke(...)] *)
Definition invoke {A} (c : Chain) (answer : option A) : M A :=
  emit (Invoke c);;
  match answer with
  | Some a => mret a
  | None => raise OracleFailure
  end.

(** [max(existing)] on a non-empty list. *)
Definition py_max (l : list N) : N := foldr N.max 0%N l.

(** [(max(existing) + 1) if existing else 1] *)
Definition next_after (existing : list N) : N :=
  match existing with
  | [] => 1%N
  | _ => (py_max existing + 1)%N
  end.

(** [int(s)] over the collected suffixes; one [ValueError] aborts the scan. *)
Definition ints (suffixes : list string) : M (list N) :=
  match mapM PyStr.int suffixes with
  | Some l => mret l
  | None => raise ValueError
  end.

(** ** Generation mode *)

(** The suffixes [p.name[len(prefix):]] of the entries that
    [runs_base.glob(f"{prefix}*")] yields, that are directories, and whose
    suffix [isdigit]. *)
Definition run_suffixes (prefix : string) (w : World) : list string :=
  match runs_base w with
  | None => []
  | Some m =>
      omap (fun '(name, e) =>
              let suffix := PyStr.drop (String.length prefix) name in
              if PyStr.startswith name prefix && is_dir e && PyStr.isdigit suffix
              then Some suffix else None)
           (map_to_list m)
  end.

(** The identifier a generation call gives its run. *)
Definition allocate_run_id (day : string) : M string :=
  let prefix := "RUN-" ++ day ++ "-" in
  w ← get;
  existing ← ints (run_suffixes prefix w);
  mret ("RUN-" ++ day ++ "-" ++ PyStr.format_03d (next_after existing)).

Inductive GenerateOutput :=
| ErrorObject (error mode : string)
| Generated (g : GenerationRequest).

Definition _run_generate (env : Env) (o : Oracle)
    (prd_text : option string) (existing_suite_index_path : option string)
    (run_config : gmap string PyVal) : M GenerateOutput :=
  let blank :=
    match prd_text with
    | None => true
    | Some text => negb (PyStr.truthy text) || negb (PyStr.truthy (PyStr.strip text))
    end in
  if blank then
    mret (ErrorObject "PRD input is empty or could not be parsed" "generate")
  else
    let text := default EmptyString prd_text in
    let include_duplicate_scan :=
      default (PyBool true) (run_config !! "include_duplicate_scan") in
    request_id ← allocate_run_id (today env);
    mkdir request_id;;
    write_file request_id "prd.md" (set_prd_md text);;
    let source := "runs/" ++ request_id ++ "/prd.md" in
    _get_llm env;;
    result ← invoke GenerationChain
               (generation_chain o
                  {| in_prd_text := text;
                     in_prd_source := source;
                     in_today := today env;
                     in_include_duplicate_scan :=
                       PyStr.lower (py_str include_duplicate_scan);
                     in_existing_suite_index_path :=
                       _format_suite_path existing_suite_index_path |});
    let output := pin_generation request_id source result in
    write_file request_id "generation_request.json"
      (set_generation_request_json (DocGeneration output));;
    write_pointer (request_id ++ newline);;
    mret (Generated output).

(** ** Review mode *)

(** [data.get("request_id", "")] on a loaded document; [None] when
    [json.loads] raises. *)
Definition doc_request_id (doc : JsonDoc) : option string :=
  match doc with
  | Malformed => None
  | DocGeneration g => Some (gen_request_id g)
  | DocRevision r => Some (rev_request_id r)
  | DocPlan _ => Some EmptyString
  | DocArtifacts a => Some (default EmptyString (art_request_id a))
  end.

(** The dict [json.loads] gives for a document, read as an artifact set. *)
Definition artifacts_of_doc (doc : JsonDoc) : Artifacts :=
  match doc with
  | DocArtifacts a => a
  | DocGeneration g =>
      {| art_request_id := Some (gen_request_id g); art_req_ids := []; art_tc_ids := [] |}
  | DocRevision r =>
      {| art_request_id := Some (rev_request_id r); art_req_ids := []; art_tc_ids := [] |}
  | _ => {| art_request_id := None; art_req_ids := []; art_tc_ids := [] |}
  end.

(** Auto-load of the artifact set through [.current_run]: the stripped
    content of the pointer, a single path component, names the run directory
    whose [generation_request.json] is loaded. *)
Definition load_active : M Artifacts :=
  w ← get;
  match current_run w with
  | None => raise RuntimeError
  | Some content =>
      let active_run_id := PyStr.strip content in
      match entries w !! active_run_id with
      | Some (EDir d) =>
          match generation_request_json d with
          | None => raise FileNotFoundError
          | Some Malformed => raise JSONDecodeError
          | Some doc => mret (artifacts_of_doc doc)
          end
      | _ => raise FileNotFoundError
      end
  end.

(** The suffixes of the [request_id]s found in the [revision_request.json]
    of every sub-directory; unreadable documents are passed over. *)
Definition rev_suffixes (prefix : string) (w : World) : list string :=
  match runs_base w with
  | None => []
  | Some m =>
      omap (fun '(_, e) =>
              match e with
              | EDir d =>
                  rid ← revision_request_json d ≫= doc_request_id;
                  let suffix := PyStr.drop (String.length prefix) rid in
                  if PyStr.startswith rid prefix && PyStr.isdigit suffix
                  then Some suffix else None
              | EFile => None
              end)
           (map_to_list m)
  end.

(** The sequence number a review call gives its revision. *)
Definition allocate_rev_seq (day : string) : M N :=
  let rev_prefix := "REV-" ++ day ++ "-" in
  w ← get;
  existing_revs ← ints (rev_suffixes rev_prefix w);
  mret (next_after existing_revs).

Definition plan_intent (i : Intent) : bool :=
  match i with revise | both => true | explain => false end.

Definition _run_review (env : Env) (o : Oracle)
    (reviewer_message : option string) (current_artifacts : option Artifacts)
    (decision_log : list string) : M RevisionRequest :=
  let blank :=
    match reviewer_message with
    | None => true
    | Some msg => negb (PyStr.truthy msg) || negb (PyStr.truthy (PyStr.strip msg))
    end in
  if blank then raise ValueError
  else
    let message := default EmptyString reviewer_message in
    arts ← match current_artifacts with
            | None => load_active
            | Some a => mret a
            end;
    next_rev_seq ← allocate_rev_seq (today env);
    let rev_request_id := "REV-" ++ today env ++ "-" ++ PyStr.format_03d next_rev_seq in
    let seq := PyStr.format_03d next_rev_seq in
    let original_run_id := art_request_id arts in
    _get_llm env;;
    intent_result ← invoke IntentChain (intent_chain o message);
    result ← invoke RevisionChain
               (revision_chain o
                  {| in_reviewer_message := message;
                     in_current_artifacts := arts;
                     in_intent := intent_result;
                     in_rev_today := today env;
                     in_seq := seq;
                     in_decision_log := decision_log |});
    let output := pin_revision rev_request_id result in
    match original_run_id with
    | Some run_id =>
        if PyStr.truthy run_id then
          mkdir run_id;;
          write_file run_id "revision_request.json"
            (set_revision_request_json (DocRevision output));;
          if plan_intent (intent output) then
            ep_result ← invoke PlanChain (ep_chain o (requested_changes output));
            let ep_output := inject_constants ep_result in
            write_file run_id "execution_plan.json"
              (set_execution_plan_json (DocPlan ep_output));;
            emit (Print ep_output);;
            mret output
          else mret output
        else mret output
    | None => mret output
    end.

(** ** Public API *)

Inductive RunOutput :=
| OfGenerate (out : GenerateOutput)
| OfReview (out : RevisionRequest).

Definition run (env : Env) (o : Oracle) (mode : string)
    (prd_text existing_suite_index_path : option string)
    (run_config : option (gmap string PyVal))
    (reviewer_message : option string) (current_artifacts : option Artifacts)
    (decision_log : option (list string)) : M RunOutput :=
  if String.eqb mode "generate" then
    out ← _run_generate env o prd_text existing_suite_index_path
            (default ∅ run_config);
    mret (OfGenerate out)
  else if String.eqb mode "review" then
    out ← _run_review env o reviewer_message current_artifacts
            (default [] decision_log);
    mret (OfReview out)
  else raise ValueError.

(** ** Vocabulary of the properties *)

(** The rules the revision prompt gives the model ([prompts.py], ALLOWED
    REVISION FIELDS and VALID ENUM VALUES). The agent has no check of its own
    for them; they are stated here to say what a returned change satisfies. *)
Definition ALLOWED_FIELDS : list string :=
  ["priority"; "priority_basis"; "human_note"; "severity"; "severity_basis"; "reasoning"].

Definition PRIORITY_VALUES : list string := ["P1"; "P2"; "P3"].

Definition SEVERITY_VALUES : list string := ["high"; "medium"; "low"].

Definition artifact_ids (a : Artifacts) : list string :=
  (art_req_ids a ++ art_tc_ids a)%list.

(** Allowed field, valid enum value, resolvable target. *)
Definition valid_change (a : Artifacts) (c : RequestedChange) : bool :=
  bool_decide (field c ∈ ALLOWED_FIELDS)
  && (if String.eqb (field c) "priority"
      then bool_decide (new_value c ∈ PRIORITY_VALUES) else true)
  && (if String.eqb (field c) "severity"
      then bool_decide (new_value c ∈ SEVERITY_VALUES) else true)
  && bool_decide (target_id c ∈ artifact_ids a).

(** The artifact set a review call works on: the explicit one, or the one
    auto-loaded through the pointer. *)
Definition resolved (current_artifacts : option Artifacts) (w : World)
    (arts : Artifacts) : Prop :=
  match current_artifacts with
  | Some a => a = arts
  | None => load_active w = (w, Return arts)
  end.

(** The originating run is known: the artifact set has a non-empty
    [request_id]. *)
Definition run_known (arts : Artifacts) (run_id : string) : Prop :=
  art_request_id arts = Some run_id /\ PyStr.truthy run_id = true.

Definition whitespace_only (t : string) : Prop :=
  PyStr.all_chars PyStr.isspace_char t = true.

(** The constraints every generation request is meant to carry. *)
Definition constraints_fixed (c : GenerationConstraints) : Prop :=
  temperature c = 0%Z /\ allow_regeneration c = false.

(** A string that names a direct child of the directory it is joined to:
    not empty, not "." or "..", and without "/" or NUL. *)
Definition single_component (name : string) : bool :=
  PyStr.truthy name
  && negb (String.eqb name ".") && negb (String.eqb name "..")
  && PyStr.all_chars (fun c => negb (Ascii.eqb c "/") && negb (Ascii.eqb c Ascii.zero))
       name.

(** The sequence number [n] is in use for [day] in the RUN namespace: the
    base directory has a sub-directory named RUN-<day>-<digits> whose digits
    read as [n]. *)
Definition run_number_in_use (day : string) (w : World) (n : N) : Prop :=
  exists suffix d,
    entries w !! ("RUN-" ++ day ++ "-" ++ suffix) = Some (EDir d)
    /\ PyStr.isdigit suffix = true
    /\ PyStr.int suffix = Some n.

(** The sequence number [n] is in use for [day] in the REV namespace: some
    sub-directory of the base directory holds a [revision_request.json] whose
    [request_id] is REV-<day>-<digits>, the digits reading as [n]. *)
Definition rev_number_in_use (day : string) (w : World) (n : N) : Prop :=
  exists name d doc suffix,
    entries w !! name = Some (EDir d)
    /\ revision_request_json d = Some doc
    /\ doc_request_id doc = Some ("REV-" ++ day ++ "-" ++ suffix)
    /\ PyStr.isdigit suffix = true
    /\ PyStr.int suffix = Some n.

(** Every digit suffix of a run directory of [day] is a decimal numeral. *)
Definition run_names_decimal (day : string) (w : World) : Prop :=
  forall suffix d,
    entries w !! ("RUN-" ++ day ++ "-" ++ suffix) = Some (EDir d) ->
    PyStr.isdigit suffix = true -> is_Some (PyStr.int suffix).

(** Every digit suffix of a recorded revision identifier of [day] is a
    decimal numeral. *)
Definition rev_ids_decimal (day : string) (w : World) : Prop :=
  forall name d doc suffix,
    entries w !! name = Some (EDir d) ->
    revision_request_json d = Some doc ->
    doc_request_id doc = Some ("REV-" ++ day ++ "-" ++ suffix) ->
    PyStr.isdigit suffix = true -> is_Some (PyStr.int suffix).

(** [n] is 1 when no number is in use, and otherwise the number after the
    highest one in use. *)
Definition number_after_highest (in_use : N -> Prop) (n : N) : Prop :=
  (1 <= n)%N
  /\ (forall k, in_use k -> (k < n)%N)
  /\ ((exists k, in_use k) -> in_use (n - 1)%N)
  /\ ((forall k, ~ in_use k) -> n = 1%N).

(** [n] is the lowest sequence number from 1 that is not in use. *)
Definition lowest_unused (in_use : N -> Prop) (n : N) : Prop :=
  (1 <= n)%N /\ ~ in_use n /\ forall k, (1 <= k < n)%N -> in_use k.

(** Every number from 1 up to a number in use is in use. *)
Definition gap_free (in_use : N -> Prop) : Prop :=
  forall m k, in_use m -> (1 <= k <= m)%N -> in_use k.

(** The effects a call added to the trace. *)
Definition new_events (w w' : World) : list Event :=
  drop (length (trace w)) (trace w').

Definition plan_written (w w' : World) : Prop :=
  exists name, WriteFile name "execution_plan.json" ∈ new_events w w'.

(** The pointer, read the way review mode reads it, names a run directory
    that has its [generation_request.json]. *)
Definition pointer_ok (w : World) : Prop :=
  forall content, current_run w = Some content ->
    exists d doc, entries w !! PyStr.strip content = Some (EDir d)
                  /\ generation_request_json d = Some doc.

(** No run directory holds an execution plan. *)
Definition no_plans (w : World) : Prop :=
  forall name d, entries w !! name = Some (EDir d) -> execution_plan_json d = None.

(** Every execution plan on disk is a plan document with the two constants. *)
Definition plans_fixed (w : World) : Prop :=
  forall name d doc, entries w !! name = Some (EDir d) ->
    execution_plan_json d = Some doc ->
    exists p, doc = DocPlan p
              /\ forbidden_changes p = FORBIDDEN_CHANGES
              /\ validation_profile p = VALIDATION_PROFILE.

(** The states of the disk after any number of calls of [run], whatever the
    arguments, the environment and the model's answers, from a disk without
    execution plans. *)
Inductive reachable : World -> Prop :=
| reach_init w : no_plans w -> reachable w
| reach_run w env o mode prd_text suite run_config message arts log :
    reachable w ->
    reachable (run env o mode prd_text suite run_config message arts log w).1.

(** The grouping the execution-plan prompt asks the model for ([prompts.py],
    RULES FOR change_scope): one entry per target in order of first
    appearance, each with its fields listed once in order of first
    appearance. *)
Fixpoint first_occurrences (l : list string) : list string :=
  match l with
  | [] => []
  | x :: l' => x :: filter (fun y => y <> x) (first_occurrences l')
  end.

Definition fields_of (target : string) (changes : list RequestedChange) : list string :=
  field <$> filter (fun c => target_id c = target) changes.

Definition grouped_scope (changes : list RequestedChange) : list ChangeScope :=
  (fun t => {| scope_target_id := t;
               allowed_fields := first_occurrences (fields_of t changes) |})
  <$> first_occurrences (target_id <$> changes).

(** The directory [name] as the agent finds it: empty when it has to be
    created. *)
Definition dir_at (w : World) (name : string) : RunDir :=
  match entries w !! name with
  | Some (EDir d) => d
  | _ => empty_dir
  end.

(** The disk after a review call wrote [d] for the run [name]; the pointer is
    left as it was. *)
Definition after_review (w : World) (name : string) (d : RunDir)
    (events : list Event) : World :=
  {| runs_base := Some (<[name := EDir d]> (entries w));
     current_run := current_run w;
     trace := trace w ++ events |}.

(** The disk after a review call that persisted nothing. *)
Definition after_calls (w : World) (events : list Event) : World :=
  {| runs_base := runs_base w;
     current_run := current_run w;
     trace := trace w ++ events |}.

(** ** Sample data

    The artifact set of the integration tests and scripted models, used to
    run the agent on concrete inputs. *)

Definition sample_env : Env :=
  {| OPENAI_API_KEY := Some "sk-test"; today := "20261104" |}.

Definition empty_disk : World :=
  {| runs_base := None; current_run := None; trace := [] |}.

Definition SAMPLE_ARTIFACTS : Artifacts :=
  {| art_request_id := None;
     art_req_ids := ["REQ-001"];
     art_tc_ids := ["TC-003"; "TC-004"] |}.

Definition REVIEW_ARTIFACTS : Artifacts :=
  {| art_request_id := Some "RUN-20261104-001";
     art_req_ids := ["REQ-001"];
     art_tc_ids := ["TC-003"; "TC-004"] |}.

(** A model that answers every call with the same scripted values. *)
Definition scripted (g : option GenerationRequest) (i : option Intent)
    (r : option RevisionRequest) (p : option ExecutionPlan) : Oracle :=
  {| generation_chain := fun _ => g;
     intent_chain := fun _ => i;
     revision_chain := fun _ => r;
     ep_chain := fun _ => p |}.

Definition generation_answer (t : Z) (regen : bool) : GenerationRequest :=
  {| gen_request_id := "RUN-20261104-001";
     prd_source := "inline";
     prd_type := ambiguous;
     constraints := {| temperature := t; allow_regeneration := regen;
                       include_duplicate_scan := true |};
     artifacts := {| existing_suite_index_path := None |} |}.

Definition change_priority : RequestedChange :=
  {| target_id := "TC-004"; field := "priority"; new_value := "P1";
     reason := "login is critical." |}.

Definition change_tc_id : RequestedChange :=
  {| target_id := "TC-004"; field := "tc_id"; new_value := "TC-999";
     reason := "Requested by reviewer." |}.

Definition revision_answer (i : Intent) (changes : list RequestedChange)
    (targets : list string) (strict : bool) : RevisionRequest :=
  {| rev_request_id := "REV-20261104-001";
     intent := i;
     requested_changes := changes;
     explanation_targets := targets;
     rejected_changes := [];
     policy := {| delta_only := strict; disallow_unrequested_changes := strict |} |}.

Definition plan_answer (scope : list ChangeScope) : ExecutionPlan :=
  {| change_scope := scope; forbidden_changes := []; validation_profile := [] |}.

(** A disk with one run directory per given name, each holding only its
    source document. *)
Definition disk_with_runs (names : list string) : World :=
  {| runs_base :=
       Some (list_to_map ((fun n => (n, EDir (set_prd_md "doc" empty_dir))) <$> names));
     current_run := None;
     trace := [] |}.

(** A disk with two runs of the day, the second one holding a revision
    recorded as REV-20261104-004, a run of the day before, and a regular
    file named like a ninth run of the day. *)
Definition disk_with_history : World :=
  {| runs_base :=
       Some (<["RUN-20261104-009" := EFile]>
               (<["RUN-20261104-002" :=
                    EDir (set_revision_request_json
                            (DocRevision (pin_revision "REV-20261104-004"
                                            (revision_answer explain [] [] true)))
                            (set_prd_md "doc" empty_dir))]>
                  (entries (disk_with_runs ["RUN-20261104-001"; "RUN-20261103-007"]))));
     current_run := None;
     trace := [] |}.

(** ** The system date *)

(** A calendar date, as [date.today()] gives it. *)
Record Date := {
  d_year : N;
  d_month : N;
  d_day : N
}.

(** The directives [%m] and [%d]: decimal, padded with a zero to two
    digits. *)
Definition format_02d (n : N) : string :=
  let s := PyStr.of_N n in PyStr.zeros (2 - String.length s) ++ s.

(** [_today]: [strftime("%Y%m%d")] of the date; [%Y] is the plain decimal
    year, which has four digits from the year 1000 on. *)
Definition _today (d : Date) : string :=
  PyStr.of_N (d_year d) ++ format_02d (d_month d) ++ format_02d (d_day d).

(** ** More sample data *)

Definition sample_date : Date := {| d_year := 2026; d_month := 11; d_day := 4 |}.

Definition keyless_env : Env :=
  {| OPENAI_API_KEY := None; today := "20261104" |}.

(** The one-character string U+00B2, a superscript two. *)
Definition superscript_two : string := String (ascii_of_nat 178) EmptyString.

(** A disk whose base directory holds one regular file. *)
Definition disk_with_file (name : string) : World :=
  {| runs_base := Some {[ name := EFile ]}; current_run := None; trace := [] |}.

(** A disk with one run directory that holds a revision request recorded
    under the identifier [rid]. *)
Definition disk_with_revision (name rid : string) : World :=
  {| runs_base :=
       Some {[ name := EDir (set_revision_request_json
                               (DocRevision (pin_revision rid
                                               (revision_answer explain [] [] true)))
                               empty_dir) ]};
     current_run := None;
     trace := [] |}.

(** A disk with a pointer and no base directory. *)
Definition disk_with_pointer (content : string) : World :=
  {| runs_base := None; current_run := Some content; trace := [] |}.

(** A model that answers a change of priority for TC-004 with the given
    intent, and the given plan. *)
Definition revising (i : Intent) (p : option ExecutionPlan) : Oracle :=
  scripted (Some (generation_answer 0 false)) (Some i)
    (Some (revision_answer i [change_priority] [] true)) p.

(** * Properties *)

(** ** Facts about the string operations *)

Module PyStrFacts.
Import PyStr.

#[local] Arguments String.append !_ _ / : simpl nomatch.

Lemma app_assoc (a b c : string) : (a ++ b) ++ c = a ++ b ++ c.
Proof. induction a as [|x a IH]; simpl; [done | by rewrite IH]. Qed.

Lemma drop_app (p s : string) : drop (String.length p) (p ++ s) = s.
Proof. induction p as [|c p IH]; simpl; auto. Qed.

Lemma startswith_app (p s : string) : startswith (p ++ s) p = true.
Proof.
  unfold startswith. induction p as [|c p IH]; simpl.
  - by destruct s.
  - destruct (ascii_dec c c); [done | congruence].
Qed.

Lemma startswith_inv (s p : string) :
  startswith s p = true -> s = p ++ drop (String.length p) s.
Proof.
  unfold startswith. revert s. induction p as [|c p IH]; intros s H; [done|].
  destruct s as [|c' s]; [done|]. cbn in H.
  destruct (Ascii.ascii_dec c c') as [->|]; [|done].
  change (String c' s = String c' (p ++ drop (String.length p) s)).
  f_equal. by apply IH.
Qed.

Lemma length_zeros k : String.length (zeros k) = k.
Proof. induction k; simpl; auto. Qed.

Lemma length_app (a b : string) :
  String.length (a ++ b) = (String.length a + String.length b)%nat.
Proof. induction a; simpl; auto. Qed.

Lemma length_format_03d n : (3 <= String.length (format_03d n))%nat.
Proof. unfold format_03d. rewrite length_app, length_zeros. lia. Qed.

Lemma length_format_03d_small n :
  (n < 1000)%N -> String.length (format_03d n) = 3%nat.
Proof.
  intros Hn.
  assert (forallb (fun k => String.length (format_03d (N.of_nat k)) =? 3)%nat
            (seq 0 1000) = true) as Hall by (vm_compute; reflexivity).
  rewrite forallb_forall in Hall.
  specialize (Hall (N.to_nat n)). rewrite N2Nat.id in Hall.
  apply Nat.eqb_eq. apply Hall. apply List.in_seq. lia.
Qed.

Lemma uint_of_zeros k (s : string) :
  NilEmpty.uint_of_string (zeros k ++ s)
  = Nat.iter k Decimal.D0 <$> NilEmpty.uint_of_string s.
Proof.
  induction k as [|k IH]; simpl.
  - destruct (NilEmpty.uint_of_string s); reflexivity.
  - rewrite IH. destruct (NilEmpty.uint_of_string s); reflexivity.
Qed.

Lemma of_uint_zeros k d : N.of_uint (Nat.iter k Decimal.D0 d) = N.of_uint d.
Proof. induction k; simpl; auto. Qed.

Lemma of_N_nonempty n : of_N n <> EmptyString.
Proof.
  unfold of_N. destruct n as [|p]; [done|].
  pose proof (DecimalPos.Unsigned.to_uint_nonnil p) as Hp.
  unfold N.to_uint. destruct (Pos.to_uint p); simpl; congruence.
Qed.

Lemma int_format_03d n : int (format_03d n) = Some n.
Proof.
  unfold int, format_03d.
  destruct (zeros _ ++ of_N n) eqn:E.
  - pose proof (of_N_nonempty n). destruct (zeros _); simpl in E; congruence.
  - rewrite <- E, uint_of_zeros. unfold of_N. rewrite NilEmpty.usu. simpl.
    by rewrite of_uint_zeros, DecimalN.Unsigned.of_to.
Qed.

Lemma all_chars_app p (a b : string) :
  all_chars p (a ++ b) = all_chars p a && all_chars p b.
Proof. induction a; simpl; auto. rewrite IHa. by rewrite andb_assoc. Qed.

Lemma digits_of_uint d : all_chars isdigit_char (NilEmpty.string_of_uint d) = true.
Proof. induction d; simpl; auto. Qed.

Lemma digits_zeros k : all_chars isdigit_char (zeros k) = true.
Proof. induction k; simpl; auto. Qed.

Lemma digits_format_03d n : all_chars isdigit_char (format_03d n) = true.
Proof.
  unfold format_03d, of_N. by rewrite all_chars_app, digits_zeros, digits_of_uint.
Qed.

Lemma format_03d_nonempty n : format_03d n <> EmptyString.
Proof.
  pose proof (length_format_03d n). intros E. rewrite E in H. simpl in H. lia.
Qed.

Lemma isdigit_format_03d n : isdigit (format_03d n) = true.
Proof.
  unfold isdigit. pose proof (format_03d_nonempty n).
  destruct (format_03d n) eqn:E; [done|]. rewrite <- E. apply digits_format_03d.
Qed.

Lemma strip_whitespace t : all_chars isspace_char t = true -> strip t = EmptyString.
Proof.
  unfold strip. induction t as [|c t IH]; simpl; [done|].
  intros [Hc Ht]%andb_prop. rewrite Hc. auto.
Qed.

Lemma digit_not_space c : isdigit_char c = true -> isspace_char c = false.
Proof.
  unfold isdigit_char, isspace_char. generalize (code c). intros n H.
  repeat match goal with
  | H : _ || _ = true |- _ => apply orb_prop in H; destruct H
  | H : _ && _ = true |- _ => apply andb_prop in H; destruct H
  | H : (_ <=? _)%nat = true |- _ => apply Nat.leb_le in H
  | H : (_ =? _)%nat = true |- _ => apply Nat.eqb_eq in H
  end;
  repeat match goal with
  | |- _ || _ = false => apply orb_false_intro
  | |- _ && _ = false => apply andb_false_iff
  end; 
  try (apply Nat.eqb_neq; lia).
  all: try (left; apply Nat.leb_gt; lia).
  all: try (right; apply Nat.leb_gt; lia).
Qed.

Lemma rstrip_digits_newline f :
  f <> EmptyString -> all_chars isdigit_char f = true -> rstrip (f ++ newline) = f.
Proof.
  induction f as [|c f IH]; [done|]. intros _ [Hc Hf]%andb_prop. simpl.
  destruct f as [|c' f].
  - simpl. by rewrite (digit_not_space c Hc).
  - rewrite IH; [done | done | done].
Qed.

Lemma rstrip_app a b : rstrip b <> EmptyString -> rstrip (a ++ b) = a ++ rstrip b.
Proof.
  intros Hb. induction a as [|c a IH]; simpl; [done|].
  rewrite IH. destruct (a ++ rstrip b) eqn:E; [|done].
  destruct a; simpl in E; congruence.
Qed.

End PyStrFacts.

(** ** Facts about the allocator *)

Section Allocator.

Lemma py_max_ge (l : list N) k : k ∈ l -> (k <= py_max l)%N.
Proof. induction 1; simpl; lia. Qed.

Lemma py_max_in (l : list N) : l <> [] -> py_max l ∈ l.
Proof.
  induction l as [|x l IH]; [done|]. intros _. simpl.
  destruct l as [|y l].
  - simpl. rewrite N.max_0_r. left.
  - destruct (N.max_spec x (py_max (y :: l))) as [[_ ->]|[_ ->]].
    + right. by apply IH.
    + left.
Qed.

Lemma next_after_nil : next_after [] = 1%N.
Proof. reflexivity. Qed.

Lemma next_after_cons (l : list N) : l <> [] -> next_after l = (py_max l + 1)%N.
Proof. by destruct l. Qed.

Lemma next_after_pos (l : list N) : (1 <= next_after l)%N.
Proof. destruct l; simpl; lia. Qed.

Lemma next_after_gt (l : list N) k : k ∈ l -> (k < next_after l)%N.
Proof.
  intros Hk. pose proof (py_max_ge l k Hk).
  rewrite next_after_cons; [lia|]. by destruct Hk.
Qed.

Lemma ints_inv suffixes w w' (res : Outcome (list N)) :
  ints suffixes w = (w', res) ->
  w' = w /\ match mapM PyStr.int suffixes with
            | Some used => res = Return used
            | None => res = Raise ValueError
            end.
Proof. unfold ints. destruct (mapM _ _); intros [= <- <-]; auto. Qed.

Lemma ints_member suffixes (used : list N) s :
  mapM PyStr.int suffixes = Some used -> s ∈ suffixes ->
  exists k, PyStr.int s = Some k /\ k ∈ used.
Proof.
  rewrite mapM_Some. intros HF (i & Hi)%list_elem_of_lookup.
  destruct (Forall2_lookup_l _ _ _ _ _ HF Hi) as (k & Hk & Hint).
  exists k. split; [done|]. apply list_elem_of_lookup. eauto.
Qed.

Lemma run_suffix_listed prefix w name d :
  entries w !! name = Some (EDir d) ->
  PyStr.startswith name prefix = true ->
  PyStr.isdigit (PyStr.drop (String.length prefix) name) = true ->
  PyStr.drop (String.length prefix) name ∈ run_suffixes prefix w.
Proof.
  unfold entries, run_suffixes. intros Hl Hp Hd.
  destruct (runs_base w) as [m|]; simpl in Hl; [|by rewrite lookup_empty in Hl].
  apply list_elem_of_omap. exists (name, EDir d). split.
  - by apply elem_of_map_to_list.
  - simpl. by rewrite Hp, Hd.
Qed.

Lemma rev_suffix_listed prefix w name d doc rid :
  entries w !! name = Some (EDir d) ->
  revision_request_json d = Some doc ->
  doc_request_id doc = Some rid ->
  PyStr.startswith rid prefix = true ->
  PyStr.isdigit (PyStr.drop (String.length prefix) rid) = true ->
  PyStr.drop (String.length prefix) rid ∈ rev_suffixes prefix w.
Proof.
  unfold entries, rev_suffixes. intros Hl Hf Hr Hp Hd.
  destruct (runs_base w) as [m|]; simpl in Hl; [|by rewrite lookup_empty in Hl].
  apply list_elem_of_omap. exists (name, EDir d). split.
  - by apply elem_of_map_to_list.
  - simpl. rewrite Hf. simpl. rewrite Hr. simpl. by rewrite Hp, Hd.
Qed.

(** What the run allocator returns, in all cases. *)
Lemma allocate_run_id_inv day w w' (res : Outcome string) :
  allocate_run_id day w = (w', res) ->
  w' = w /\ match mapM PyStr.int (run_suffixes ("RUN-" ++ day ++ "-") w) with
            | Some used =>
                res = Return ("RUN-" ++ day ++ "-" ++ PyStr.format_03d (next_after used))
            | None => res = Raise ValueError
            end.
Proof.
  unfold allocate_run_id, ints, mbind, M_bind, get, mret, M_ret, raise. 
  destruct (mapM _ _); intros [= <- <-]; split; done.
Qed.

Lemma allocate_rev_seq_inv day w w' (res : Outcome N) :
  allocate_rev_seq day w = (w', res) ->
  w' = w /\ match mapM PyStr.int (rev_suffixes ("REV-" ++ day ++ "-") w) with
            | Some used => res = Return (next_after used)
            | None => res = Raise ValueError
            end.
Proof.
  unfold allocate_rev_seq, ints, mbind, M_bind, get, mret, M_ret, raise.
  destruct (mapM _ _); intros [= <- <-]; split; done.
Qed.

(** The identifier the run allocator returns names no existing directory. *)
Lemma allocate_run_id_fresh day w w' id d :
  allocate_run_id day w = (w', Return id) -> entries w !! id <> Some (EDir d).
Proof.
  intros [_ Hres]%allocate_run_id_inv Hl.
  destruct (mapM _ _) as [used|] eqn:Hused; [|done].
  injection Hres as ->.
  set (prefix := "RUN-" ++ day ++ "-") in *.
  set (f := PyStr.format_03d (next_after used)) in *.
  replace ("RUN-" ++ day ++ "-" ++ f) with (prefix ++ f) in Hl
    by (unfold prefix; by rewrite !PyStrFacts.app_assoc).
  pose proof (run_suffix_listed prefix w _ d Hl) as Hin.
  rewrite PyStrFacts.drop_app in Hin.
  specialize (Hin (PyStrFacts.startswith_app _ _) (PyStrFacts.isdigit_format_03d _)).
  destruct (ints_member _ _ _ Hused Hin) as (k & Hk & Hkin).
  unfold f in Hk. rewrite PyStrFacts.int_format_03d in Hk. injection Hk as <-.
  apply next_after_gt in Hkin. lia.
Qed.

(** The identifier built from the number the revision allocator returns is
    recorded in no revision artifact on disk. *)
Lemma allocate_rev_seq_fresh day w w' n name d doc :
  allocate_rev_seq day w = (w', Return n) ->
  entries w !! name = Some (EDir d) ->
  revision_request_json d = Some doc ->
  doc_request_id doc <> Some ("REV-" ++ day ++ "-" ++ PyStr.format_03d n).
Proof.
  intros [_ Hres]%allocate_rev_seq_inv Hl Hd Hid.
  destruct (mapM _ _) as [used|] eqn:Hused; [|done].
  injection Hres as ->.
  set (prefix := "REV-" ++ day ++ "-") in *.
  set (f := PyStr.format_03d (next_after used)) in *.
  replace ("REV-" ++ day ++ "-" ++ f) with (prefix ++ f) in Hid
    by (unfold prefix; by rewrite !PyStrFacts.app_assoc).
  pose proof (rev_suffix_listed prefix w name d doc _ Hl Hd Hid) as Hin.
  rewrite PyStrFacts.drop_app in Hin.
  specialize (Hin (PyStrFacts.startswith_app _ _) (PyStrFacts.isdigit_format_03d _)).
  destruct (ints_member _ _ _ Hused Hin) as (k & Hk & Hkin).
  unfold f in Hk. rewrite PyStrFacts.int_format_03d in Hk. injection Hk as <-.
  apply next_after_gt in Hkin. lia.
Qed.

Lemma next_after_py_max (l : list N) : next_after l = (py_max l + 1)%N.
Proof. by destruct l. Qed.

Lemma py_max_unique (l : list N) n :
  n ∈ l -> (forall k, k ∈ l -> (k <= n)%N) -> py_max l = n.
Proof.
  intros Hin Hle. apply N.le_antisymm.
  - apply Hle, py_max_in. by destruct Hin.
  - by apply py_max_ge.
Qed.

Lemma elem_of_ints suffixes (used : list N) k :
  mapM PyStr.int suffixes = Some used ->
  k ∈ used <-> exists s, s ∈ suffixes /\ PyStr.int s = Some k.
Proof.
  rewrite mapM_Some. intros HF. split.
  - intros (i & Hi)%list_elem_of_lookup.
    destruct (Forall2_lookup_r _ _ _ _ _ HF Hi) as (s & Hs & Hint).
    exists s. split; [|done]. apply list_elem_of_lookup. eauto.
  - intros (s & Hs & Hint). apply list_elem_of_lookup in Hs as [i Hi].
    destruct (Forall2_lookup_l _ _ _ _ _ HF Hi) as (k' & Hk' & Hint').
    assert (k' = k) as -> by congruence.
    apply list_elem_of_lookup. eauto.
Qed.

Lemma elem_of_run_suffixes prefix w s :
  s ∈ run_suffixes prefix w
  <-> exists name d,
        entries w !! name = Some (EDir d)
        /\ PyStr.startswith name prefix = true
        /\ PyStr.isdigit (PyStr.drop (String.length prefix) name) = true
        /\ s = PyStr.drop (String.length prefix) name.
Proof.
  split.
  - unfold run_suffixes, entries. destruct (runs_base w) as [m|]; cbn;
      [|by intros ?%elem_of_nil].
    intros ([name e] & Hin & Hf)%list_elem_of_omap.
    apply elem_of_map_to_list in Hin. cbn in Hf.
    destruct (PyStr.startswith name prefix) eqn:Hp; [|done].
    destruct e as [|d]; [done|]. cbn in Hf.
    destruct (PyStr.isdigit _) eqn:Hd; [|done]. injection Hf as <-.
    by exists name, d.
  - intros (name & d & Hl & Hp & Hd & ->). by eapply run_suffix_listed.
Qed.

Lemma elem_of_rev_suffixes prefix w s :
  s ∈ rev_suffixes prefix w
  <-> exists name d doc rid,
        entries w !! name = Some (EDir d)
        /\ revision_request_json d = Some doc
        /\ doc_request_id doc = Some rid
        /\ PyStr.startswith rid prefix = true
        /\ PyStr.isdigit (PyStr.drop (String.length prefix) rid) = true
        /\ s = PyStr.drop (String.length prefix) rid.
Proof.
  split.
  - unfold rev_suffixes, entries. destruct (runs_base w) as [m|]; cbn;
      [|by intros ?%elem_of_nil].
    intros ([name e] & Hin & Hf)%list_elem_of_omap.
    apply elem_of_map_to_list in Hin. cbn in Hf.
    destruct e as [|d]; [done|].
    destruct (revision_request_json d) as [doc|] eqn:Hdoc; [|done]. cbn in Hf.
    destruct (doc_request_id doc) as [rid|] eqn:Hrid; [|done]. cbn in Hf.
    destruct (PyStr.startswith rid prefix) eqn:Hp; [|done]. cbn in Hf.
    destruct (PyStr.isdigit _) eqn:Hd; [|done]. injection Hf as <-.
    by exists name, d, doc, rid.
  - intros (name & d & doc & rid & Hl & Hdoc & Hrid & Hp & Hd & ->).
    by eapply rev_suffix_listed.
Qed.

(** The scan succeeds when every collected suffix is a decimal numeral. *)
Lemma ints_total suffixes :
  (forall s, s ∈ suffixes -> is_Some (PyStr.int s)) -> is_Some (mapM PyStr.int suffixes).
Proof. intros H. apply mapM_is_Some, Forall_forall. exact H. Qed.

Lemma run_prefix_app day suffix :
  "RUN-" ++ day ++ "-" ++ suffix = ("RUN-" ++ day ++ "-") ++ suffix.
Proof. by rewrite !PyStrFacts.app_assoc. Qed.

Lemma rev_prefix_app day suffix :
  "REV-" ++ day ++ "-" ++ suffix = ("REV-" ++ day ++ "-") ++ suffix.
Proof. by rewrite !PyStrFacts.app_assoc. Qed.

Lemma elem_of_run_suffixes_name day w s :
  s ∈ run_suffixes ("RUN-" ++ day ++ "-") w
  <-> exists d, entries w !! ("RUN-" ++ day ++ "-" ++ s) = Some (EDir d)
                /\ PyStr.isdigit s = true.
Proof.
  rewrite elem_of_run_suffixes. split.
  - intros (name & d & Hl & Hp & Hd & ->). exists d. split; [|done].
    by rewrite run_prefix_app, <- (PyStrFacts.startswith_inv _ _ Hp).
  - intros (d & Hl & Hd). exists ("RUN-" ++ day ++ "-" ++ s), d.
    rewrite run_prefix_app in *. rewrite PyStrFacts.drop_app.
    split_and!; try done. apply PyStrFacts.startswith_app.
Qed.

Lemma elem_of_rev_suffixes_id day w s :
  s ∈ rev_suffixes ("REV-" ++ day ++ "-") w
  <-> exists name d doc,
        entries w !! name = Some (EDir d)
        /\ revision_request_json d = Some doc
        /\ doc_request_id doc = Some ("REV-" ++ day ++ "-" ++ s)
        /\ PyStr.isdigit s = true.
Proof.
  rewrite elem_of_rev_suffixes. split.
  - intros (name & d & doc & rid & Hl & Hdoc & Hrid & Hp & Hd & ->).
    exists name, d, doc. split_and!; try done.
    by rewrite rev_prefix_app, <- (PyStrFacts.startswith_inv _ _ Hp).
  - intros (name & d & doc & Hl & Hdoc & Hrid & Hd).
    exists name, d, doc, ("REV-" ++ day ++ "-" ++ s).
    rewrite rev_prefix_app in *. rewrite PyStrFacts.drop_app.
    split_and!; try done. apply PyStrFacts.startswith_app.
Qed.

(** The numbers a scan of the run directories collects are the numbers in
    use, and the scan succeeds when the suffixes are decimal. *)
Lemma run_scan day w :
  run_names_decimal day w ->
  exists used,
    mapM PyStr.int (run_suffixes ("RUN-" ++ day ++ "-") w) = Some used
    /\ forall k, k ∈ used <-> run_number_in_use day w k.
Proof.
  intros Hdec.
  destruct (ints_total (run_suffixes ("RUN-" ++ day ++ "-") w)) as [used Hused].
  { intros s (d & Hl & Hd)%elem_of_run_suffixes_name. by eapply Hdec. }
  exists used. split; [done|]. intros k.
  rewrite (elem_of_ints _ _ _ Hused). unfold run_number_in_use. split.
  - intros (s & (d & Hl & Hd)%elem_of_run_suffixes_name & Hk). by exists s, d.
  - intros (s & d & Hl & Hd & Hk). exists s. split; [|done].
    apply elem_of_run_suffixes_name. by exists d.
Qed.

Lemma rev_scan day w :
  rev_ids_decimal day w ->
  exists used,
    mapM PyStr.int (rev_suffixes ("REV-" ++ day ++ "-") w) = Some used
    /\ forall k, k ∈ used <-> rev_number_in_use day w k.
Proof.
  intros Hdec.
  destruct (ints_total (rev_suffixes ("REV-" ++ day ++ "-") w)) as [used Hused].
  { intros s (name & d & doc & Hl & Hdoc & Hrid & Hd)%elem_of_rev_suffixes_id.
    by eapply Hdec. }
  exists used. split; [done|]. intros k.
  rewrite (elem_of_ints _ _ _ Hused). unfold rev_number_in_use. split.
  - intros (s & (name & d & doc & Hl & Hdoc & Hrid & Hd)%elem_of_rev_suffixes_id & Hk).
    by exists name, d, doc, s.
  - intros (name & d & doc & s & Hl & Hdoc & Hrid & Hd & Hk). exists s. split; [|done].
    apply elem_of_rev_suffixes_id. by exists name, d, doc.
Qed.

Lemma next_after_highest (used : list N) (in_use : N -> Prop) :
  (forall k, k ∈ used <-> in_use k) ->
  number_after_highest in_use (next_after used)
  /\ (lowest_unused in_use (next_after used) <-> gap_free in_use).
Proof.
  intros Hiff. split; [split_and!|].
  - apply next_after_pos.
  - intros k Hk%Hiff. by apply next_after_gt.
  - intros [k Hk%Hiff]. apply Hiff.
    assert (used <> []) as Hne by (by destruct Hk).
    rewrite (next_after_cons _ Hne).
    replace (py_max used + 1 - 1)%N with (py_max used) by lia.
    by apply py_max_in.
  - intros Hnone. destruct used as [|k used]; [done|].
    destruct (Hnone k). apply Hiff. left.
  - unfold lowest_unused, gap_free. split.
    + intros (_ & _ & Hall) m k Hm%Hiff Hk. apply Hall.
      apply next_after_gt in Hm. lia.
    + intros Hgap. split_and!.
      * apply next_after_pos.
      * intros Hin%Hiff%next_after_gt. lia.
      * intros k Hk. destruct used as [|x used]; [cbn in Hk; lia|].
        apply (Hgap (py_max (x :: used))).
        -- apply Hiff. by apply py_max_in.
        -- rewrite next_after_cons in Hk by done. lia.
Qed.

End Allocator.

(** ** Symbolic execution of the two modes *)

#[local] Arguments PyStr.format_03d : simpl never.
#[local] Arguments PyStr.strip : simpl never.
#[local] Arguments PyStr.truthy : simpl never.
#[local] Arguments PyStr.lower : simpl never.
#[local] Arguments py_str : simpl never.
#[local] Arguments newline : simpl never.
#[local] Arguments allocate_run_id : simpl never.
#[local] Arguments allocate_rev_seq : simpl never.
#[local] Arguments load_active : simpl never.

Ltac unfold_run :=
  unfold _run_review, _run_generate, mkdir, write_file, write_pointer, invoke,
    _get_llm, emit, put_runs, put_pointer, get, raise, mbind, M_bind, mret, M_ret in *.

Lemma allocate_run_id_raises day w w' e :
  allocate_run_id day w = (w', Raise e) -> e = ValueError.
Proof.
  intros [_ H]%allocate_run_id_inv. destruct (mapM _ _); congruence.
Qed.

Lemma allocate_rev_seq_raises day w w' e :
  allocate_rev_seq day w = (w', Raise e) -> e = ValueError.
Proof.
  intros [_ H]%allocate_rev_seq_inv. destruct (mapM _ _); congruence.
Qed.

Lemma load_active_inv w w' (res : Outcome Artifacts) :
  load_active w = (w', res) -> w' = w /\ res <> Raise OracleFailure.
Proof.
  unfold load_active, mbind, M_bind, get, raise, mret, M_ret. cbn.
  repeat case_match; intros [= <- <-]; split; congruence.
Qed.

Ltac exec_step :=
  match goal with
  | H : allocate_run_id _ ?w = (?w', _) |- _ =>
      lazymatch w' with
      | w => fail
      | _ => pose proof (proj1 (allocate_run_id_inv _ _ _ _ H)); subst w'
      end
  | H : allocate_rev_seq _ ?w = (?w', _) |- _ =>
      lazymatch w' with
      | w => fail
      | _ => pose proof (proj1 (allocate_rev_seq_inv _ _ _ _ H)); subst w'
      end
  | H : load_active ?w = (?w', _) |- _ =>
      lazymatch w' with
      | w => fail
      | _ => pose proof (proj1 (load_active_inv _ _ _ H)); subst w'
      end
  | H : context [match ?x with _ => _ end] |- _ =>
      lazymatch x with
      | context [match _ with _ => _ end] => fail
      | _ => destruct x eqn:?
      end
  | H : context [if ?x then _ else _] |- _ =>
      lazymatch x with
      | context [if _ then _ else _] => fail
      | context [match _ with _ => _ end] => fail
      | _ => destruct x eqn:?
      end
  end.

Ltac exec H :=
  unfold_run; cbn in H;
  repeat (exec_step; simplify_eq; cbn in *; rewrite ?lookup_insert_eq in * );
  simplify_eq; cbn in *.

Lemma generate_inv env o prd suite rc w w' res :
  _run_generate env o prd suite rc w = (w', res) ->
  match res with
  | Return (ErrorObject _ _) => w' = w
  | Return (Generated g) =>
      exists text id input result,
        prd = Some text
        /\ allocate_run_id (today env) w = (w, Return id)
        /\ entries w !! id = None
        /\ in_prd_text input = text
        /\ generation_chain o input = Some result
        /\ g = pin_generation id ("runs/" ++ id ++ "/prd.md") result
        /\ w' = {| runs_base :=
                     Some (<[id := EDir {| prd_md := Some text;
                                           generation_request_json := Some (DocGeneration g);
                                           revision_request_json := None;
                                           execution_plan_json := None |}]> (entries w));
                   current_run := Some (id ++ newline);
                   trace := trace w ++ [Mkdir id; WriteFile id "prd.md";
                                        Invoke GenerationChain;
                                        WriteFile id "generation_request.json";
                                        WritePointer (id ++ newline)] |}
  | Raise OracleFailure =>
      exists text id input,
        prd = Some text
        /\ allocate_run_id (today env) w = (w, Return id)
        /\ entries w !! id = None
        /\ in_prd_text input = text
        /\ generation_chain o input = None
        /\ w' = {| runs_base :=
                     Some (<[id := EDir {| prd_md := Some text;
                                           generation_request_json := None;
                                           revision_request_json := None;
                                           execution_plan_json := None |}]> (entries w));
                   current_run := current_run w;
                   trace := trace w ++ [Mkdir id; WriteFile id "prd.md";
                                        Invoke GenerationChain] |}
  | Raise _ => True
  end.
Proof.
  intros H. exec H.
  all: try done.
  all: try (exfalso; eapply allocate_run_id_fresh; eauto; fail).
  all: rewrite ?insert_insert_eq.
  - eexists _, _, _, _. split_and!; eauto; [done|]. by rewrite <- !app_assoc.
  - eexists _, _, _. split_and!; eauto; [done|]. by rewrite <- !app_assoc.
  - by rewrite (allocate_run_id_raises _ _ _ _ Heqp).
Qed.

Ltac split_lookup :=
  repeat match goal with
  | H : <[?k:=_]> _ !! ?n = _ |- _ =>
      destruct (decide (k = n)) as [->|]; simplify_map_eq
  end.

Ltac no_plan_write :=
  let Hin := fresh "Hin" in
  intros ? Hin;
  repeat (apply elem_of_cons in Hin as [Hin|Hin]; [discriminate|]);
  by apply elem_of_nil in Hin.

Ltac frame_tail :=
  split_and!; [reflexivity | reflexivity | no_plan_write |];
  let name := fresh "name" in let d' := fresh "d'" in let Hl := fresh "Hl" in
  intros name d' Hl; split_lookup; simplify_map_eq; done.

Lemma review_inv env o msg ca log w w' res :
  _run_review env o msg ca log w = (w', res) ->
  match res with
  | Return out =>
      exists message arts n i r,
        msg = Some message
        /\ resolved ca w arts
        /\ allocate_rev_seq (today env) w = (w, Return n)
        /\ intent_chain o message = Some i
        /\ revision_chain o
             {| in_reviewer_message := message;
                in_current_artifacts := arts;
                in_intent := i;
                in_rev_today := today env;
                in_seq := PyStr.format_03d n;
                in_decision_log := log |} = Some r
        /\ out = pin_revision ("REV-" ++ today env ++ "-" ++ PyStr.format_03d n) r
        /\ ((exists run_id, run_known arts run_id
              /\ entries w !! run_id <> Some EFile
              /\ if plan_intent (intent out) then
                   exists p, ep_chain o (requested_changes out) = Some p
                     /\ w' = after_review w run_id
                               (set_execution_plan_json (DocPlan (inject_constants p))
                                  (set_revision_request_json (DocRevision out)
                                     (dir_at w run_id)))
                               [Invoke IntentChain; Invoke RevisionChain; Mkdir run_id;
                                WriteFile run_id "revision_request.json";
                                Invoke PlanChain;
                                WriteFile run_id "execution_plan.json";
                                Print (inject_constants p)]
                 else
                   w' = after_review w run_id
                          (set_revision_request_json (DocRevision out) (dir_at w run_id))
                          [Invoke IntentChain; Invoke RevisionChain; Mkdir run_id;
                           WriteFile run_id "revision_request.json"])
            \/ ((forall run_id, ~ run_known arts run_id)
                /\ w' = after_calls w [Invoke IntentChain; Invoke RevisionChain]))
  | Raise _ =>
      exists events,
        trace w' = (trace w ++ events)%list
        /\ current_run w' = current_run w
        /\ (forall name, WriteFile name "execution_plan.json" ∉ events)
        /\ (forall name d', entries w' !! name = Some (EDir d') ->
              execution_plan_json d' = execution_plan_json (dir_at w name))
  end.
Proof.
  intros H. exec H.
  all: unfold dir_at, after_review, after_calls, entries in *.
  all: try lazymatch goal with
    | |- exists events : list Event, _ =>
        first [ exists []; rewrite app_nil_r; frame_tail
              | eexists; rewrite <- ?app_assoc; frame_tail ]
    end.
  all: eexists _, _, _, _, _; split_and!; eauto.
  all: try (right; split; [intros ? [? ?]; congruence | by rewrite <- !app_assoc]).
  all: left; eexists; split_and!; eauto; try congruence.
  all: unfold run_known; try done.
  all: cbn; try congruence.
  all: match goal with H : plan_intent _ = _ |- _ => rewrite H end.
  all: try (eexists; split; [eassumption|]).
  all: rewrite ?insert_insert_eq, <- ?app_assoc.
  all: try match goal with H : default ∅ _ !! _ = _ |- _ => by rewrite H end.
Qed.


(** ** Generation mode *)

Lemma new_events_app w w' events :
  trace w' = (trace w ++ events)%list -> new_events w w' = events.
Proof. unfold new_events. intros ->. by rewrite drop_app_length. Qed.

(** C9. A generation call whose document is empty or made of whitespace
    only returns the error object with mode "generate": it does not raise, and
    the state it returns is the state it was given, so no run directory was
    created, the pointer was not written, and no call of the model was
    traced. *)
Theorem blank_document_reported env o text suite rc w :
  whitespace_only text ->
  _run_generate env o (Some text) suite rc w
  = (w, Return (ErrorObject "PRD input is empty or could not be parsed" "generate")).
Proof.
  intros Hws. unfold _run_generate.
  rewrite (PyStrFacts.strip_whitespace text Hws).
  by rewrite orb_true_r.
Qed.

Lemma blank_document_reported_witness :
  whitespace_only "   "
  /\ _run_generate sample_env (scripted None None None None) (Some "   ") None ∅ empty_disk
     = (empty_disk,
        Return (ErrorObject "PRD input is empty or could not be parsed" "generate")).
Proof.
  split; [reflexivity|].
  apply (blank_document_reported sample_env (scripted None None None None) "   ").
  reflexivity.
Defined.

(** C10. When the model's call fails in a generation call, the new run
    directory exists and holds the source document and nothing else, no other
    entry of the disk changed, the pointer is untouched, and the effects of the
    call are the directory creation, the write of [prd.md] and the failed call:
    [generation_request.json] and [.current_run] were not written. A pointer
    that named a run with its generation request still does. *)
Theorem oracle_failure_leaves_pointer env o prd suite rc w w' :
  _run_generate env o prd suite rc w = (w', Raise OracleFailure) ->
  exists text id,
    prd = Some text
    /\ entries w !! id = None
    /\ entries w' !! id
       = Some (EDir {| prd_md := Some text; generation_request_json := None;
                       revision_request_json := None; execution_plan_json := None |})
    /\ (forall name, name <> id -> entries w' !! name = entries w !! name)
    /\ current_run w' = current_run w
    /\ new_events w w' = [Mkdir id; WriteFile id "prd.md"; Invoke GenerationChain]
    /\ (pointer_ok w -> pointer_ok w').
Proof.
  intros H. apply generate_inv in H.
  destruct H as (text & id & input & -> & _ & Hfresh & _ & _ & ->).
  exists text, id. split_and!; try done.
  - cbn. by rewrite lookup_insert_eq.
  - intros name Hne. cbn. by rewrite lookup_insert_ne.
  - by apply new_events_app.
  - intros Hok content Hc. destruct (Hok content Hc) as (d & doc & Hl & Hd).
    exists d, doc. split; [|done]. cbn.
    rewrite lookup_insert_ne; [done|]. intros ->. congruence.
Qed.

Lemma oracle_failure_leaves_pointer_witness :
  exists text id,
    Some "doc" = Some text
    /\ entries empty_disk !! id = None
    /\ entries (_run_generate sample_env (scripted None None None None)
                  (Some "doc") None ∅ empty_disk).1 !! id
       = Some (EDir {| prd_md := Some text; generation_request_json := None;
                       revision_request_json := None; execution_plan_json := None |})
    /\ (forall name, name <> id ->
          entries (_run_generate sample_env (scripted None None None None)
                     (Some "doc") None ∅ empty_disk).1 !! name
          = entries empty_disk !! name)
    /\ current_run (_run_generate sample_env (scripted None None None None)
                      (Some "doc") None ∅ empty_disk).1
       = current_run empty_disk
    /\ new_events empty_disk
         (_run_generate sample_env (scripted None None None None)
            (Some "doc") None ∅ empty_disk).1
       = [Mkdir id; WriteFile id "prd.md"; Invoke GenerationChain]
    /\ (pointer_ok empty_disk ->
        pointer_ok (_run_generate sample_env (scripted None None None None)
                      (Some "doc") None ∅ empty_disk).1).
Proof.
  apply (oracle_failure_leaves_pointer sample_env (scripted None None None None)
           (Some "doc") None ∅ empty_disk).
  vm_compute. reflexivity.
Defined.


Lemma strip_pinned (prefix f : string) c :
  PyStr.isspace_char c = false ->
  f <> EmptyString -> PyStr.all_chars PyStr.isdigit_char f = true ->
  PyStr.strip ((String c prefix ++ f) ++ newline) = String c prefix ++ f.
Proof.
  intros Hc Hne Hf. unfold PyStr.strip.
  rewrite PyStrFacts.app_assoc.
  change (String c prefix ++ f ++ newline) with (String c (prefix ++ f ++ newline)).
  cbn [PyStr.lstrip]. rewrite Hc.
  change (String c (prefix ++ f ++ newline)) with (String c prefix ++ f ++ newline).
  rewrite PyStrFacts.rstrip_app; rewrite PyStrFacts.rstrip_digits_newline; done.
Qed.

Lemma strip_run_id day n :
  PyStr.strip (("RUN-" ++ day ++ "-" ++ PyStr.format_03d n) ++ newline)
  = "RUN-" ++ day ++ "-" ++ PyStr.format_03d n.
Proof.
  rewrite <- !(PyStrFacts.app_assoc _ _ (PyStr.format_03d n)).
  change ("RUN-" ++ day) with (String "R" ("UN-" ++ day)).
  change ((String "R" ("UN-" ++ day)) ++ "-") with (String "R" (("UN-" ++ day) ++ "-")).
  apply strip_pinned; [done | apply PyStrFacts.format_03d_nonempty
                       | apply PyStrFacts.digits_format_03d].
Qed.

(** C4. A generation call that returns a request has pinned its
    [request_id] to the identifier computed from the existing run directories
    and the date, RUN-<today>-<NNN> with NNN the next number, and its
    [prd_source] to the path of the stored document under that identifier,
    whatever the model answered for the two fields; the run directory holds
    the document and the request; the pointer file was written with the
    [request_id], one line ended by a newline, and read the way review mode
    reads it, stripped, its content is the returned [request_id]. *)
Theorem generate_pins_identity env o prd suite rc w w' g :
  _run_generate env o prd suite rc w = (w', Return (Generated g)) ->
  exists used,
    mapM PyStr.int (run_suffixes ("RUN-" ++ today env ++ "-") w) = Some used
    /\ gen_request_id g = "RUN-" ++ today env ++ "-" ++ PyStr.format_03d (next_after used)
    /\ prd_source g = "runs/" ++ gen_request_id g ++ "/prd.md"
    /\ (exists d, entries w' !! gen_request_id g = Some (EDir d)
                  /\ prd_md d = prd
                  /\ generation_request_json d = Some (DocGeneration g))
    /\ current_run w' = Some (gen_request_id g ++ newline)
    /\ WritePointer (gen_request_id g ++ newline) ∈ new_events w w'
    /\ PyStr.strip (gen_request_id g ++ newline) = gen_request_id g.
Proof.
  intros H. apply generate_inv in H.
  destruct H as (text & id & input & result & -> & Hid & _ & _ & _ & -> & ->).
  apply allocate_run_id_inv in Hid as [_ Hid].
  destruct (mapM _ _) as [used|]; [|done]. injection Hid as ->.
  exists used. cbn. split_and!; try done.
  - eexists. rewrite lookup_insert_eq. split_and!; done.
  - erewrite new_events_app; [|done]. set_solver.
  - apply strip_run_id.
Qed.

Lemma generate_pins_identity_witness :
  exists w' g,
    _run_generate sample_env (scripted (Some (generation_answer 0 false)) None None None)
      (Some "doc") None ∅ (disk_with_runs ["RUN-20261104-001"]) = (w', Return (Generated g))
    /\ gen_request_id g = "RUN-20261104-002"
    /\ exists used,
         mapM PyStr.int (run_suffixes ("RUN-" ++ today sample_env ++ "-")
                           (disk_with_runs ["RUN-20261104-001"])) = Some used
    /\ gen_request_id g = "RUN-" ++ today sample_env ++ "-" ++ PyStr.format_03d (next_after used)
    /\ prd_source g = "runs/" ++ gen_request_id g ++ "/prd.md"
    /\ (exists d, entries w' !! gen_request_id g = Some (EDir d)
                  /\ prd_md d = Some "doc"
                  /\ generation_request_json d = Some (DocGeneration g))
    /\ current_run w' = Some (gen_request_id g ++ newline)
    /\ WritePointer (gen_request_id g ++ newline)
         ∈ new_events (disk_with_runs ["RUN-20261104-001"]) w'
    /\ PyStr.strip (gen_request_id g ++ newline) = gen_request_id g.
Proof.
  eexists _, _. split; [vm_compute; reflexivity|]. split; [reflexivity|].
  apply (generate_pins_identity sample_env
           (scripted (Some (generation_answer 0 false)) None None None)
           (Some "doc") None ∅ (disk_with_runs ["RUN-20261104-001"])).
  vm_compute. reflexivity.
Defined.

(** C3, as the code has it. The constraints of a returned generation
    request are the ones the model answered: the agent pins no constraint
    after the call. The caller's [run_config] reaches the model through its
    [include_duplicate_scan] entry only, so an override of [temperature] or
    [allow_regeneration] changes nothing in the call; the two constants hold
    in the result exactly when they hold in the model's answer. *)
Theorem generate_constraints_from_oracle env o prd suite w :
  (forall rc w' g,
      _run_generate env o prd suite rc w = (w', Return (Generated g)) ->
      exists input result,
        generation_chain o input = Some result
        /\ Some (in_prd_text input) = prd
        /\ constraints g = constraints result
        /\ (constraints_fixed (constraints g) <-> constraints_fixed (constraints result)))
  /\ (forall rc1 rc2,
        rc1 !! "include_duplicate_scan" = rc2 !! "include_duplicate_scan" ->
        _run_generate env o prd suite rc1 w = _run_generate env o prd suite rc2 w).
Proof.
  split.
  - intros rc w' g H. apply generate_inv in H.
    destruct H as (text & id & input & result & -> & _ & _ & <- & Hres & -> & _).
    exists input, result. by split_and!.
  - intros rc1 rc2 Hrc. unfold _run_generate. by rewrite Hrc.
Qed.

Lemma generate_constraints_from_oracle_witness :
  exists w' g,
    _run_generate sample_env (scripted (Some (generation_answer 0 false)) None None None)
      (Some "doc") None {[ "temperature" := PyInt 1 ]} empty_disk
    = (w', Return (Generated g))
    /\ constraints_fixed (constraints g)
    /\ exists input result,
         generation_chain (scripted (Some (generation_answer 0 false)) None None None) input
         = Some result
         /\ Some (in_prd_text input) = Some "doc"
         /\ constraints g = constraints result
         /\ (constraints_fixed (constraints g) <-> constraints_fixed (constraints result)).
Proof.
  eexists _, _. split; [vm_compute; reflexivity|]. split; [by split|].
  eapply (proj1 (generate_constraints_from_oracle sample_env
                  (scripted (Some (generation_answer 0 false)) None None None)
                  (Some "doc") None empty_disk)
           {[ "temperature" := PyInt 1 ]}).
  vm_compute. reflexivity.
Defined.

(** C3 as stated fails: a model that answers temperature 1 and
    allow_regeneration true gets both into the returned request. *)
Lemma generate_keeps_oracle_temperature :
  exists w' g,
    _run_generate sample_env (scripted (Some (generation_answer 1 true)) None None None)
      (Some "doc") None ∅ empty_disk = (w', Return (Generated g))
    /\ temperature (constraints g) = 1%Z
    /\ allow_regeneration (constraints g) = true
    /\ ~ constraints_fixed (constraints g).
Proof.
  eexists _, _. split; [vm_compute; reflexivity|].
  split_and!; [done | done |]. intros [? _]. done.
Qed.

(** ** The identifier allocator *)

(** C6, as the code has it. The numbers in use for today's date are read
    off the disk: in the RUN namespace the digit suffixes of the
    sub-directories named RUN-<date>-<digits>, regular files left out; in the
    REV namespace the digit suffixes of the [request_id]s recorded in the
    [revision_request.json] of the sub-directories. When those suffixes are
    decimal numerals, each allocator returns, without changing the state, the
    number after the highest one in use, or 1 when none is in use: a number
    of at least 1 above every number in use, which is the lowest unused one
    exactly when the numbers in use have no gap. A generation call names its
    run RUN-<date>-<NNN> and a review call its revision REV-<date>-<NNN>
    with the number its allocator returned; NNN is the decimal numeral padded
    with zeros to three digits (longer from 1000 on), and reads back as the
    number. The date is the one [_today] formats, so that the prefix the run
    scan matches holds digits only and no character that is special in a
    glob pattern. *)
Theorem allocator_next_after_highest env date w :
  today env = _today date ->
  (run_names_decimal (today env) w ->
   exists n,
     allocate_run_id (today env) w
     = (w, Return ("RUN-" ++ today env ++ "-" ++ PyStr.format_03d n))
     /\ number_after_highest (run_number_in_use (today env) w) n
     /\ (lowest_unused (run_number_in_use (today env) w) n
         <-> gap_free (run_number_in_use (today env) w)))
  /\ (rev_ids_decimal (today env) w ->
      exists n,
        allocate_rev_seq (today env) w = (w, Return n)
        /\ number_after_highest (rev_number_in_use (today env) w) n
        /\ (lowest_unused (rev_number_in_use (today env) w) n
            <-> gap_free (rev_number_in_use (today env) w)))
  /\ (forall o prd suite rc w' g,
        _run_generate env o prd suite rc w = (w', Return (Generated g)) ->
        allocate_run_id (today env) w = (w, Return (gen_request_id g)))
  /\ (forall o msg ca log w' out,
        _run_review env o msg ca log w = (w', Return out) ->
        exists n,
          allocate_rev_seq (today env) w = (w, Return n)
          /\ rev_request_id out = "REV-" ++ today env ++ "-" ++ PyStr.format_03d n)
  /\ (forall n : N,
        PyStr.int (PyStr.format_03d n) = Some n
        /\ PyStr.isdigit (PyStr.format_03d n) = true
        /\ (3 <= String.length (PyStr.format_03d n))%nat
        /\ ((n < 1000)%N -> String.length (PyStr.format_03d n) = 3%nat)).
Proof.
  intros _. split_and!.
  - intros (used & Hused & Hiff)%run_scan. exists (next_after used).
    split; [|by apply next_after_highest].
    unfold allocate_run_id, ints, mbind, M_bind, get, mret, M_ret. by rewrite Hused.
  - intros (used & Hused & Hiff)%rev_scan. exists (next_after used).
    split; [|by apply next_after_highest].
    unfold allocate_rev_seq, ints, mbind, M_bind, get, mret, M_ret. by rewrite Hused.
  - intros o prd suite rc w' g H. apply generate_inv in H.
    destruct H as (text & id & input & result & _ & Hid & _ & _ & _ & -> & _). done.
  - intros o msg ca log w' out H. apply review_inv in H.
    destruct H as (message & arts & n & i & r & _ & _ & Hn & _ & _ & -> & _).
    by exists n.
  - intros n. split_and!.
    + apply PyStrFacts.int_format_03d.
    + apply PyStrFacts.isdigit_format_03d.
    + apply PyStrFacts.length_format_03d.
    + apply PyStrFacts.length_format_03d_small.
Qed.

(** Case analysis on a lookup in a concrete base directory. *)
Ltac split_listed H :=
  first [ apply elem_of_nil in H; destruct H
        | apply elem_of_cons in H as [H|H]; [| split_listed H] ].

Ltac listed_entry H :=
  apply elem_of_map_to_list in H;
  match type of H with
  | _ ∈ map_to_list ?m =>
      let l := eval vm_compute in (map_to_list m) in
      change (map_to_list m) with l in H
  end;
  cbv [String.append today sample_env] in H;
  split_listed H; simplify_eq.

Lemma allocator_next_after_highest_witness :
  today sample_env = _today sample_date
  /\ allocate_run_id "20261104" disk_with_history
     = (disk_with_history, Return "RUN-20261104-003")
  /\ allocate_rev_seq "20261104" disk_with_history = (disk_with_history, Return 5%N)
  /\ (exists n,
        allocate_run_id (today sample_env) disk_with_history
        = (disk_with_history,
           Return ("RUN-" ++ today sample_env ++ "-" ++ PyStr.format_03d n))
        /\ number_after_highest (run_number_in_use (today sample_env) disk_with_history) n
        /\ (lowest_unused (run_number_in_use (today sample_env) disk_with_history) n
            <-> gap_free (run_number_in_use (today sample_env) disk_with_history)))
  /\ (exists n,
        allocate_rev_seq (today sample_env) disk_with_history
        = (disk_with_history, Return n)
        /\ number_after_highest (rev_number_in_use (today sample_env) disk_with_history) n
        /\ (lowest_unused (rev_number_in_use (today sample_env) disk_with_history) n
            <-> gap_free (rev_number_in_use (today sample_env) disk_with_history)))
  /\ (exists w' g,
        _run_generate sample_env (revising explain None) (Some "doc") None ∅
          disk_with_history = (w', Return (Generated g))
        /\ allocate_run_id (today sample_env) disk_with_history
           = (disk_with_history, Return (gen_request_id g)))
  /\ (exists w' out,
        _run_review sample_env (revising explain None) (Some "Why is TC-003 P2?")
          (Some REVIEW_ARTIFACTS) [] disk_with_history = (w', Return out)
        /\ exists n,
             allocate_rev_seq (today sample_env) disk_with_history
             = (disk_with_history, Return n)
             /\ rev_request_id out
                = "REV-" ++ today sample_env ++ "-" ++ PyStr.format_03d n).
Proof.
  split; [reflexivity|].
  split; [vm_compute; reflexivity|]. split; [vm_compute; reflexivity|].
  split_and!.
  - apply (proj1 (allocator_next_after_highest sample_env sample_date
                    disk_with_history eq_refl)).
    intros suffix d Hl Hd. listed_entry Hl; by eexists.
  - apply (proj1 (proj2 (allocator_next_after_highest sample_env sample_date
                           disk_with_history eq_refl))).
    intros name d doc suffix Hl Hdoc Hrid Hd.
    listed_entry Hl; cbn in Hdoc; simplify_eq.
    cbv [String.append doc_request_id pin_revision rev_request_id] in Hrid.
    simplify_eq. by eexists.
  - eexists _, _. split; [vm_compute; reflexivity|].
    eapply (proj1 (proj2 (proj2 (allocator_next_after_highest sample_env sample_date
                                   disk_with_history eq_refl)))
              (revising explain None) (Some "doc") None ∅).
    vm_compute. reflexivity.
  - eexists _, _. split; [vm_compute; reflexivity|].
    eapply (proj1 (proj2 (proj2 (proj2 (allocator_next_after_highest sample_env
                                          sample_date disk_with_history eq_refl))))
              (revising explain None) (Some "Why is TC-003 P2?")
              (Some REVIEW_ARTIFACTS) []).
    vm_compute. reflexivity.
Defined.

(** C6 as stated fails in both namespaces: with run 002 on disk and no run
    001 the run allocator returns 003, and with a revision recorded as 002
    and none as 001 the revision allocator returns 3, while in both cases the
    lowest unused number is 1. And a suffix that is a digit for [isdigit]
    without being a decimal numeral, such as a superscript two, makes either
    allocator raise [ValueError] instead of returning a number. *)
Lemma allocator_skips_gap :
  (allocate_run_id "20261104" (disk_with_runs ["RUN-20261104-002"])
   = (disk_with_runs ["RUN-20261104-002"], Return "RUN-20261104-003")
   /\ lowest_unused
        (run_number_in_use "20261104" (disk_with_runs ["RUN-20261104-002"])) 1
   /\ ~ lowest_unused
          (run_number_in_use "20261104" (disk_with_runs ["RUN-20261104-002"])) 3)
  /\ (allocate_rev_seq "20261104" (disk_with_revision "RUN-20261104-001" "REV-20261104-002")
      = (disk_with_revision "RUN-20261104-001" "REV-20261104-002", Return 3%N)
      /\ lowest_unused
           (rev_number_in_use "20261104"
              (disk_with_revision "RUN-20261104-001" "REV-20261104-002")) 1
      /\ ~ lowest_unused
             (rev_number_in_use "20261104"
                (disk_with_revision "RUN-20261104-001" "REV-20261104-002")) 3)
  /\ (PyStr.isdigit superscript_two = true
      /\ PyStr.int superscript_two = None
      /\ allocate_run_id "20261104" (disk_with_runs ["RUN-20261104-" ++ superscript_two])
         = (disk_with_runs ["RUN-20261104-" ++ superscript_two], Raise ValueError)
      /\ allocate_rev_seq "20261104"
           (disk_with_revision "RUN-20261104-001" ("REV-20261104-" ++ superscript_two))
         = (disk_with_revision "RUN-20261104-001" ("REV-20261104-" ++ superscript_two),
            Raise ValueError)).
Proof.
  split; [|split]; split_and!.
  - vm_compute. reflexivity.
  - split_and!; [lia | | intros k ?; lia].
    intros (suffix & d & Hl & Hd & Hk). listed_entry Hl; vm_compute in Hk; discriminate.
  - intros (_ & _ & Hall). destruct (Hall 1%N ltac:(lia)) as (suffix & d & Hl & Hd & Hk).
    listed_entry Hl; vm_compute in Hk; discriminate.
  - vm_compute. reflexivity.
  - split_and!; [lia | | intros k ?; lia].
    intros (name & d & doc & suffix & Hl & Hdoc & Hrid & Hd & Hk).
    listed_entry Hl; cbn in Hdoc; simplify_eq;
    cbv [String.append doc_request_id pin_revision rev_request_id] in Hrid;
    simplify_eq; vm_compute in Hk; discriminate.
  - intros (_ & _ & Hall).
    destruct (Hall 1%N ltac:(lia)) as (name & d & doc & suffix & Hl & Hdoc & Hrid & Hd & Hk).
    listed_entry Hl; cbn in Hdoc; simplify_eq;
    cbv [String.append doc_request_id pin_revision rev_request_id] in Hrid;
    simplify_eq; vm_compute in Hk; discriminate.
  - reflexivity.
  - reflexivity.
  - vm_compute. reflexivity.
  - vm_compute. reflexivity.
Qed.


(** ** Review mode *)

Lemma resolved_unique ca w a1 a2 : resolved ca w a1 -> resolved ca w a2 -> a1 = a2.
Proof. unfold resolved. destruct ca; congruence. Qed.

Lemma run_known_unique arts id1 id2 : run_known arts id1 -> run_known arts id2 -> id1 = id2.
Proof. unfold run_known. intros [? _] [? _]. congruence. Qed.

(** C1, as the code has it. The [requested_changes] and [rejected_changes]
    of a returned revision request are the lists the model answered in the
    revision step for the reviewer's message and the artifact set: the agent
    moves nothing between them and checks nothing itself. Every returned
    change has an allowed field, a valid enum value and a target in the
    artifact set exactly when every change the model proposed has. *)
Theorem review_changes_from_oracle env o msg ca log w w' out :
  _run_review env o msg ca log w = (w', Return out) ->
  exists arts input r,
    resolved ca w arts
    /\ in_current_artifacts input = arts
    /\ Some (in_reviewer_message input) = msg
    /\ revision_chain o input = Some r
    /\ requested_changes out = requested_changes r
    /\ rejected_changes out = rejected_changes r
    /\ (Forall (fun c => valid_change arts c = true) (requested_changes out)
        <-> Forall (fun c => valid_change arts c = true) (requested_changes r)).
Proof.
  intros H. apply review_inv in H.
  destruct H as (message & arts & n & i & r & -> & Hres & _ & _ & Hr & -> & _).
  eexists arts, _, r. split_and!; [done | | | exact Hr | done | done | done]; done.
Qed.

Lemma review_changes_from_oracle_witness :
  exists w' out,
    _run_review sample_env
      (scripted None (Some revise)
         (Some (revision_answer revise [change_priority] [] true))
         (Some (plan_answer [])))
      (Some "Make TC-004 P1 - login is critical.") (Some REVIEW_ARTIFACTS) [] empty_disk
    = (w', Return out)
    /\ Forall (fun c => valid_change REVIEW_ARTIFACTS c = true) (requested_changes out)
    /\ exists arts input r,
         resolved (Some REVIEW_ARTIFACTS) empty_disk arts
         /\ in_current_artifacts input = arts
         /\ Some (in_reviewer_message input) = Some "Make TC-004 P1 - login is critical."
         /\ revision_chain
              (scripted None (Some revise)
                 (Some (revision_answer revise [change_priority] [] true))
                 (Some (plan_answer []))) input = Some r
         /\ requested_changes out = requested_changes r
         /\ rejected_changes out = rejected_changes r
         /\ (Forall (fun c => valid_change arts c = true) (requested_changes out)
             <-> Forall (fun c => valid_change arts c = true) (requested_changes r)).
Proof.
  eexists _, _. split; [vm_compute; reflexivity|].
  split; [by repeat constructor|].
  eapply (review_changes_from_oracle sample_env
            (scripted None (Some revise)
               (Some (revision_answer revise [change_priority] [] true))
               (Some (plan_answer [])))
            (Some "Make TC-004 P1 - login is critical.") (Some REVIEW_ARTIFACTS) []
            empty_disk).
  vm_compute. reflexivity.
Defined.

(** C1 as stated fails: a model that leaves a change of the forbidden field
    [tc_id] among its requested changes gets it returned there, and nothing is
    added to the rejected changes. *)
Lemma review_keeps_forbidden_field :
  exists w' out,
    _run_review sample_env
      (scripted None (Some revise)
         (Some (revision_answer revise [change_tc_id] [] true))
         (Some (plan_answer [])))
      (Some "Change the tc_id on TC-004") (Some REVIEW_ARTIFACTS) [] empty_disk
    = (w', Return out)
    /\ requested_changes out = [change_tc_id]
    /\ rejected_changes out = []
    /\ (field change_tc_id ∉ ALLOWED_FIELDS)
    /\ valid_change REVIEW_ARTIFACTS change_tc_id = false.
Proof.
  eexists _, _. split; [vm_compute; reflexivity|].
  split_and!; [done | done | | done].
  intros Hin. by repeat (apply elem_of_cons in Hin as [Hin|Hin]; [discriminate|]);
    apply elem_of_nil in Hin.
Qed.

(** C2, as the code has it. A returned revision request is the model's
    answer with one field replaced: [request_id] is pinned to
    REV-<today>-<allocated number>. The intent, the requested changes, the
    explanation targets and both policy flags are the model's. *)
Theorem review_pins_only_request_id env o msg ca log w w' out :
  _run_review env o msg ca log w = (w', Return out) ->
  exists n input r,
    allocate_rev_seq (today env) w = (w, Return n)
    /\ revision_chain o input = Some r
    /\ out = pin_revision ("REV-" ++ today env ++ "-" ++ PyStr.format_03d n) r
    /\ rev_request_id out = "REV-" ++ today env ++ "-" ++ PyStr.format_03d n
    /\ intent out = intent r
    /\ requested_changes out = requested_changes r
    /\ explanation_targets out = explanation_targets r
    /\ policy out = policy r.
Proof.
  intros H. apply review_inv in H.
  destruct H as (message & arts & n & i & r & -> & _ & Hn & _ & Hr & -> & _).
  eexists n, _, r. split_and!; [done | exact Hr | ..]; done.
Qed.

Lemma review_pins_only_request_id_witness :
  exists w' out,
    _run_review sample_env
      (scripted None (Some explain)
         (Some (revision_answer explain [] ["TC-003"] true)) None)
      (Some "Why is TC-003 P2?") (Some REVIEW_ARTIFACTS) [] empty_disk
    = (w', Return out)
    /\ rev_request_id out = "REV-20261104-001"
    /\ exists n input r,
         allocate_rev_seq (today sample_env) empty_disk = (empty_disk, Return n)
         /\ revision_chain
              (scripted None (Some explain)
                 (Some (revision_answer explain [] ["TC-003"] true)) None) input = Some r
         /\ out = pin_revision ("REV-" ++ today sample_env ++ "-" ++ PyStr.format_03d n) r
         /\ rev_request_id out = "REV-" ++ today sample_env ++ "-" ++ PyStr.format_03d n
         /\ intent out = intent r
         /\ requested_changes out = requested_changes r
         /\ explanation_targets out = explanation_targets r
         /\ policy out = policy r.
Proof.
  eexists _, _. split; [vm_compute; reflexivity|]. split; [reflexivity|].
  eapply (review_pins_only_request_id sample_env
            (scripted None (Some explain)
               (Some (revision_answer explain [] ["TC-003"] true)) None)
            (Some "Why is TC-003 P2?") (Some REVIEW_ARTIFACTS) [] empty_disk).
  vm_compute. reflexivity.
Defined.

(** C2 as stated fails: the model's answer comes back as given. With intent
    "explain" a requested change and two false policy flags are returned; with
    intent "revise" an explanation target is returned. *)
Lemma review_explain_keeps_changes :
  (exists w' out,
      _run_review sample_env
        (scripted None (Some explain)
           (Some (revision_answer explain [change_priority] ["TC-003"] false)) None)
        (Some "Why is TC-003 P2?") (Some REVIEW_ARTIFACTS) [] empty_disk
      = (w', Return out)
      /\ intent out = explain
      /\ requested_changes out = [change_priority]
      /\ delta_only (policy out) = false
      /\ disallow_unrequested_changes (policy out) = false)
  /\ (exists w' out,
        _run_review sample_env
          (scripted None (Some revise)
             (Some (revision_answer revise [change_priority] ["TC-003"] true))
             (Some (plan_answer [])))
          (Some "Make TC-004 P1") (Some REVIEW_ARTIFACTS) [] empty_disk
        = (w', Return out)
        /\ intent out = revise
        /\ explanation_targets out = ["TC-003"]).
Proof.
  split; eexists _, _; (split; [vm_compute; reflexivity|]); by split_and!.
Qed.


Lemma plan_written_events w w' events :
  trace w' = (trace w ++ events)%list ->
  plan_written w w' <-> exists name, WriteFile name "execution_plan.json" ∈ events.
Proof. intros H. unfold plan_written. by rewrite (new_events_app _ _ _ H). Qed.

(** What a review call leaves on disk when it wrote a plan, and when it did
    not. *)
Lemma review_plan_cases env o msg ca log w w' res :
  _run_review env o msg ca log w = (w', res) ->
  (plan_written w w'
   /\ exists out arts run_id p d,
        res = Return out
        /\ resolved ca w arts
        /\ run_known arts run_id
        /\ plan_intent (intent out) = true
        /\ ep_chain o (requested_changes out) = Some p
        /\ entries w' !! run_id = Some (EDir d)
        /\ execution_plan_json d = Some (DocPlan (inject_constants p))
        /\ WriteFile run_id "execution_plan.json" ∈ new_events w w')
  \/ (~ plan_written w w'
      /\ forall out arts run_id,
           res = Return out -> resolved ca w arts -> run_known arts run_id ->
           plan_intent (intent out) = false).
Proof.
  intros H. apply review_inv in H. destruct res as [out|e].
  - destruct H as (message & arts & n & i & r & -> & Hres & _ & _ & _ & Hout & Hw).
    destruct Hw as [(run_id & Hknown & _ & Hw) | [Hunknown ->]].
    + destruct (plan_intent (intent out)) eqn:Hplan.
      * destruct Hw as (p & Hp & ->). left.
        assert (WriteFile run_id "execution_plan.json"
                  ∈ new_events w
                      (after_review w run_id
                         (set_execution_plan_json (DocPlan (inject_constants p))
                            (set_revision_request_json (DocRevision out) (dir_at w run_id)))
                         [Invoke IntentChain; Invoke RevisionChain; Mkdir run_id;
                          WriteFile run_id "revision_request.json"; Invoke PlanChain;
                          WriteFile run_id "execution_plan.json";
                          Print (inject_constants p)])) as Hin.
        { erewrite new_events_app; [|reflexivity].
          do 5 apply list_elem_of_further. apply list_elem_of_here. }
        split; [by exists run_id|].
        eexists out, arts, run_id, p, _. split_and!; try done.
        { cbn. by rewrite lookup_insert_eq. }
        done.
      * subst w'. right. split.
        -- rewrite plan_written_events by reflexivity. intros [name Hin]. revert Hin.
           apply (ltac:(no_plan_write) :
                    forall name, WriteFile name "execution_plan.json"
                                 ∉ [Invoke IntentChain; Invoke RevisionChain; Mkdir run_id;
                                    WriteFile run_id "revision_request.json"]).
        -- intros out' arts' run_id' [= <-] _ _. done.
    + right. split.
      * rewrite plan_written_events by reflexivity. intros [name Hin]. revert Hin.
        apply (ltac:(no_plan_write) :
                 forall name, WriteFile name "execution_plan.json"
                              ∉ [Invoke IntentChain; Invoke RevisionChain]).
      * intros out' arts' run_id' _ Hres' Hknown.
        rewrite <- (resolved_unique _ _ _ _ Hres Hres') in Hknown.
        by destruct (Hunknown run_id').
  - destruct H as (events & Htrace & _ & Hnone & _). right. split.
    + rewrite (plan_written_events _ _ _ Htrace). intros [name Hin]. by apply (Hnone name).
    + intros out' arts' run_id' [=].
Qed.

(** C7, as the code has it. A review call writes the execution plan exactly
    when it returns, the originating run is known (the artifact set has a
    non-empty [request_id]) and the returned intent is "revise" or "both",
    whether or not a requested change is present and whatever the length of
    the plan's [change_scope]; it never writes it when the returned intent is
    "explain". *)
Theorem plan_written_iff env o msg ca log w w' res :
  _run_review env o msg ca log w = (w', res) ->
  (plan_written w w'
   <-> exists out arts run_id,
         res = Return out /\ resolved ca w arts /\ run_known arts run_id
         /\ (intent out = revise \/ intent out = both))
  /\ (forall out, res = Return out -> intent out = explain -> ~ plan_written w w').
Proof.
  intros H. destruct (review_plan_cases _ _ _ _ _ _ _ _ H)
    as [[Hw (out & arts & run_id & p & d & -> & Hres & Hknown & Hplan & _)] | [Hnw Hno]].
  - split.
    + split; [|done]. intros _. exists out, arts, run_id. split_and!; try done.
      destruct (intent out); auto; discriminate.
    + intros out' [= <-] Hi. rewrite Hi in Hplan. discriminate.
  - split.
    + split; [done|]. intros (out & arts & run_id & -> & Hres & Hknown & Hi).
      specialize (Hno out arts run_id eq_refl Hres Hknown).
      destruct Hi as [Hi|Hi]; rewrite Hi in Hno; discriminate.
    + intros; done.
Qed.

Lemma plan_written_iff_witness :
  exists w' out,
    _run_review sample_env
      (scripted None (Some revise) (Some (revision_answer revise [] [] true))
         (Some (plan_answer [])))
      (Some "Make TC-004 P1") (Some REVIEW_ARTIFACTS) [] empty_disk
    = (w', Return out)
    /\ requested_changes out = []
    /\ plan_written empty_disk w'
    /\ (plan_written empty_disk w'
        <-> exists out' arts run_id,
              Return out = Return out' /\ resolved (Some REVIEW_ARTIFACTS) empty_disk arts
              /\ run_known arts run_id
              /\ (intent out' = revise \/ intent out' = both))
    /\ (forall out', Return out = Return out' -> intent out' = explain ->
                     ~ plan_written empty_disk w').
Proof.
  eexists _, _. split; [vm_compute; reflexivity|]. split; [reflexivity|].
  split.
  - exists "RUN-20261104-001". vm_compute.
    do 5 apply list_elem_of_further. apply list_elem_of_here.
  - eapply (plan_written_iff sample_env
              (scripted None (Some revise) (Some (revision_answer revise [] [] true))
                 (Some (plan_answer [])))
              (Some "Make TC-004 P1") (Some REVIEW_ARTIFACTS) [] empty_disk).
    vm_compute. reflexivity.
Defined.

(** C7 as stated fails: with an artifact set that has no [request_id], a
    call whose intent is "revise" and whose one requested change passes every
    check writes no execution plan. *)
Lemma plan_not_written_without_run_id :
  exists w' out,
    _run_review sample_env
      (scripted None (Some revise) (Some (revision_answer revise [change_priority] [] true))
         (Some (plan_answer [{| scope_target_id := "TC-004";
                                allowed_fields := ["priority"] |}])))
      (Some "Make TC-004 P1") (Some SAMPLE_ARTIFACTS) [] empty_disk
    = (w', Return out)
    /\ intent out = revise
    /\ requested_changes out = [change_priority]
    /\ valid_change SAMPLE_ARTIFACTS change_priority = true
    /\ ~ plan_written empty_disk w'.
Proof.
  eexists _, _. split; [vm_compute; reflexivity|].
  split_and!; [done | done | done |].
  intros [name Hin]. vm_compute in Hin. revert name Hin. no_plan_write.
Qed.


(** ** The execution plan *)

Lemma elem_of_first_occurrences (l : list string) x : x ∈ first_occurrences l <-> x ∈ l.
Proof.
  induction l as [|y l IH]; simpl; [done|].
  rewrite !elem_of_cons, list_elem_of_filter, IH.
  destruct (decide (x = y)); tauto.
Qed.

Lemma NoDup_first_occurrences (l : list string) : NoDup (first_occurrences l).
Proof.
  induction l as [|y l IH]; simpl; constructor.
  - rewrite list_elem_of_filter. tauto.
  - by apply NoDup_filter.
Qed.

(** The grouping names each target once, and exactly the targets of the
    changes. *)
Lemma grouped_scope_targets changes :
  NoDup (scope_target_id <$> grouped_scope changes)
  /\ forall t, t ∈ (scope_target_id <$> grouped_scope changes)
               <-> t ∈ (target_id <$> changes).
Proof.
  assert (scope_target_id <$> grouped_scope changes
          = first_occurrences (target_id <$> changes)) as ->.
  { unfold grouped_scope. rewrite <- list_fmap_compose.
    induction (first_occurrences (target_id <$> changes)) as [|t l IH]; simpl;
      [done | by f_equal]. }
  split; [apply NoDup_first_occurrences|].
  intros t. apply elem_of_first_occurrences.
Qed.

Example grouped_scope_example :
  grouped_scope
    [ {| target_id := "TC-004"; field := "priority"; new_value := "P1"; reason := "a" |};
      {| target_id := "TC-003"; field := "severity"; new_value := "low"; reason := "b" |};
      {| target_id := "TC-004"; field := "priority"; new_value := "P2"; reason := "c" |};
      {| target_id := "TC-004"; field := "human_note"; new_value := "x"; reason := "d" |} ]
  = [ {| scope_target_id := "TC-004"; allowed_fields := ["priority"; "human_note"] |};
      {| scope_target_id := "TC-003"; allowed_fields := ["severity"] |} ].
Proof. vm_compute. reflexivity. Qed.

(** C8, as the code has it. When a review call writes an execution plan,
    its [change_scope] is the one the model answered when given the returned
    [requested_changes] list and nothing else; the agent derives no scope
    itself. The persisted scope is the grouping by target, in order of first
    appearance and with each field once, exactly when the model's answer is. *)
Theorem plan_scope_from_oracle env o msg ca log w w' res :
  _run_review env o msg ca log w = (w', res) ->
  plan_written w w' ->
  exists out run_id p d,
    res = Return out
    /\ ep_chain o (requested_changes out) = Some p
    /\ WriteFile run_id "execution_plan.json" ∈ new_events w w'
    /\ entries w' !! run_id = Some (EDir d)
    /\ execution_plan_json d = Some (DocPlan (inject_constants p))
    /\ change_scope (inject_constants p) = change_scope p
    /\ (change_scope (inject_constants p) = grouped_scope (requested_changes out)
        <-> change_scope p = grouped_scope (requested_changes out)).
Proof.
  intros H Hw. destruct (review_plan_cases _ _ _ _ _ _ _ _ H)
    as [[_ (out & arts & run_id & p & d & -> & _ & _ & _ & Hp & Hl & Hd & Hin)] | [Hnw _]];
    [|done].
  exists out, run_id, p, d. by split_and!.
Qed.

Lemma plan_scope_from_oracle_witness :
  exists w' res,
    _run_review sample_env
      (scripted None (Some revise) (Some (revision_answer revise [change_priority] [] true))
         (Some (plan_answer [{| scope_target_id := "TC-004";
                                allowed_fields := ["priority"] |}])))
      (Some "Make TC-004 P1") (Some REVIEW_ARTIFACTS) [] empty_disk
    = (w', res)
    /\ plan_written empty_disk w'
    /\ exists out run_id p d,
         res = Return out
         /\ ep_chain
              (scripted None (Some revise)
                 (Some (revision_answer revise [change_priority] [] true))
                 (Some (plan_answer [{| scope_target_id := "TC-004";
                                        allowed_fields := ["priority"] |}])))
              (requested_changes out) = Some p
         /\ WriteFile run_id "execution_plan.json" ∈ new_events empty_disk w'
         /\ entries w' !! run_id = Some (EDir d)
         /\ execution_plan_json d = Some (DocPlan (inject_constants p))
         /\ change_scope (inject_constants p) = change_scope p
         /\ (change_scope (inject_constants p) = grouped_scope (requested_changes out)
             <-> change_scope p = grouped_scope (requested_changes out)).
Proof.
  eexists _, _. split; [vm_compute; reflexivity|].
  assert (plan_written empty_disk
            (_run_review sample_env
               (scripted None (Some revise)
                  (Some (revision_answer revise [change_priority] [] true))
                  (Some (plan_answer [{| scope_target_id := "TC-004";
                                         allowed_fields := ["priority"] |}])))
               (Some "Make TC-004 P1") (Some REVIEW_ARTIFACTS) [] empty_disk).1) as Hw.
  { exists "RUN-20261104-001". vm_compute.
    do 5 apply list_elem_of_further. apply list_elem_of_here. }
  split; [exact Hw|].
  apply (plan_scope_from_oracle sample_env
           (scripted None (Some revise)
              (Some (revision_answer revise [change_priority] [] true))
              (Some (plan_answer [{| scope_target_id := "TC-004";
                                     allowed_fields := ["priority"] |}])))
           (Some "Make TC-004 P1") (Some REVIEW_ARTIFACTS) [] empty_disk);
    [vm_compute; reflexivity | exact Hw].
Defined.

(** C8 as stated fails: when the model answers an empty scope for one
    requested change, the empty scope is persisted, not the grouping of the
    change. *)
Lemma plan_scope_not_grouped :
  exists w' out d p,
    _run_review sample_env
      (scripted None (Some revise) (Some (revision_answer revise [change_priority] [] true))
         (Some (plan_answer [])))
      (Some "Make TC-004 P1") (Some REVIEW_ARTIFACTS) [] empty_disk
    = (w', Return out)
    /\ requested_changes out = [change_priority]
    /\ entries w' !! "RUN-20261104-001" = Some (EDir d)
    /\ execution_plan_json d = Some (DocPlan p)
    /\ change_scope p = []
    /\ grouped_scope (requested_changes out)
       = [{| scope_target_id := "TC-004"; allowed_fields := ["priority"] |}]
    /\ change_scope p <> grouped_scope (requested_changes out).
Proof.
  eexists _, _, _, _. split; [vm_compute; reflexivity|].
  split; [reflexivity|]. split; [vm_compute; reflexivity|].
  split; [reflexivity|]. split; [reflexivity|]. split; [vm_compute; reflexivity|].
  vm_compute. discriminate.
Qed.


(** ** The constants of the execution plan *)

(** A generation call leaves every execution plan as it was. *)
Lemma generate_frame env o prd suite rc w w' res :
  _run_generate env o prd suite rc w = (w', res) ->
  forall name d', entries w' !! name = Some (EDir d') ->
    execution_plan_json d' = execution_plan_json (dir_at w name).
Proof.
  intros H. exec H.
  all: unfold dir_at, entries in *.
  all: intros name d' Hl; cbn in Hl; split_lookup; simplify_map_eq; try done.
  all: try (exfalso; eapply allocate_run_id_fresh; eauto; fail).
Qed.

Lemma frame_plans_fixed w w' :
  (forall name d', entries w' !! name = Some (EDir d') ->
     execution_plan_json d' = execution_plan_json (dir_at w name)) ->
  plans_fixed w -> plans_fixed w'.
Proof.
  intros Hframe Hfix name d' doc Hl Hd.
  rewrite (Hframe name d' Hl) in Hd. unfold dir_at in Hd.
  destruct (entries w !! name) as [[|d]|] eqn:Hw; try discriminate.
  by apply (Hfix name d doc).
Qed.

Lemma after_review_plans_fixed w name d events :
  plans_fixed w ->
  (forall doc, execution_plan_json d = Some doc ->
     execution_plan_json (dir_at w name) = Some doc
     \/ exists p, doc = DocPlan (inject_constants p)) ->
  plans_fixed (after_review w name d events).
Proof.
  intros Hfix Hd name' d' doc Hl Hdoc. cbn in Hl.
  destruct (decide (name = name')) as [<-|Hne].
  - rewrite lookup_insert_eq in Hl. injection Hl as <-.
    destruct (Hd doc Hdoc) as [Hold | [p ->]].
    + unfold dir_at in Hold.
      destruct (entries w !! name) as [[|d0]|] eqn:Hw; try discriminate.
      by apply (Hfix name d0 doc).
    + by exists (inject_constants p).
  - rewrite lookup_insert_ne in Hl by done. by apply (Hfix name' d' doc).
Qed.

Lemma review_plans_fixed env o msg ca log w w' res :
  _run_review env o msg ca log w = (w', res) -> plans_fixed w -> plans_fixed w'.
Proof.
  intros H Hfix. apply review_inv in H. destruct res as [out|e].
  - destruct H as (message & arts & n & i & r & _ & _ & _ & _ & _ & _ & Hw).
    destruct Hw as [(run_id & _ & _ & Hw) | [_ ->]]; [|done].
    destruct (plan_intent (intent out)).
    + destruct Hw as (p & _ & ->). apply after_review_plans_fixed; [done|].
      intros doc [= <-]. right. by exists p.
    + subst w'. apply after_review_plans_fixed; [done|]. intros doc Hdoc. by left.
  - destruct H as (events & _ & _ & _ & Hframe). by apply (frame_plans_fixed w).
Qed.

Lemma run_plans_fixed env o mode prd suite rc msg arts log w :
  plans_fixed w -> plans_fixed (run env o mode prd suite rc msg arts log w).1.
Proof.
  intros Hfix. unfold run, mbind, M_bind, mret, M_ret, raise.
  destruct (String.eqb mode "generate").
  - destruct (_run_generate _ _ _ _ _ w) as [w' [out|e]] eqn:H; cbn;
      (apply (frame_plans_fixed w); [exact (generate_frame _ _ _ _ _ _ _ _ H) | done]).
  - destruct (String.eqb mode "review"); [|done].
    destruct (_run_review _ _ _ _ _ w) as [w' [out|e]] eqn:H; cbn;
      exact (review_plans_fixed _ _ _ _ _ _ _ _ H Hfix).
Qed.

(** C5. On a disk that held no execution plan at the start, after any
    number of calls with any arguments and any answers of the model, every
    [execution_plan.json] is a plan whose [forbidden_changes] and
    [validation_profile] are the two fixed lists: what the model answered for
    the two fields is discarded. *)
Theorem persisted_plans_fixed w name d doc :
  reachable w ->
  entries w !! name = Some (EDir d) ->
  execution_plan_json d = Some doc ->
  exists p,
    doc = DocPlan p
    /\ forbidden_changes p = ["req_id"; "tc_id"; "objective"; "type"; "surface"]
    /\ validation_profile p = ["schema"; "cross_ref"; "delta"; "rationale"].
Proof.
  intros Hreach. revert name d doc. change (plans_fixed w).
  induction Hreach as [w Hnone | w env o mode prd suite rc msg arts log _ IH].
  - intros name d doc Hl Hd. rewrite (Hnone name d Hl) in Hd. discriminate.
  - by apply run_plans_fixed.
Qed.

Lemma persisted_plans_fixed_witness :
  exists d p,
    entries (run sample_env
               (scripted None (Some revise)
                  (Some (revision_answer revise [change_priority] [] true))
                  (Some {| change_scope := [];
                           forbidden_changes := ["priority"];
                           validation_profile := ["none"] |}))
               "review" None None None (Some "Make TC-004 P1")
               (Some REVIEW_ARTIFACTS) None empty_disk).1 !! "RUN-20261104-001"
    = Some (EDir d)
    /\ execution_plan_json d = Some (DocPlan p)
    /\ exists p',
         DocPlan p = DocPlan p'
         /\ forbidden_changes p' = ["req_id"; "tc_id"; "objective"; "type"; "surface"]
         /\ validation_profile p' = ["schema"; "cross_ref"; "delta"; "rationale"].
Proof.
  eexists _, _. split; [vm_compute; reflexivity|]. split; [reflexivity|].
  eapply (persisted_plans_fixed
            (run sample_env
               (scripted None (Some revise)
                  (Some (revision_answer revise [change_priority] [] true))
                  (Some {| change_scope := [];
                           forbidden_changes := ["priority"];
                           validation_profile := ["none"] |}))
               "review" None None None (Some "Make TC-004 P1")
               (Some REVIEW_ARTIFACTS) None empty_disk).1
            "RUN-20261104-001").
  - apply reach_run, reach_init. intros name d Hl. vm_compute in Hl. discriminate.
  - vm_compute. reflexivity.
  - reflexivity.
Defined.
(** ** Sequencing of identifiers across calls *)

(** The numbers in use after a scan that succeeded, once more directories
    or revision artifacts were added, stay readable when the additions are. *)
Lemma next_after_extended (old new : list N) n :
  n = next_after old ->
  n ∈ new ->
  (forall k, k ∈ new -> k = n \/ k ∈ old) ->
  next_after new = (n + 1)%N.
Proof.
  intros -> Hin Hsub. rewrite (next_after_py_max new). f_equal.
  apply py_max_unique; [done|]. intros k [->|Hk%next_after_gt]%Hsub; lia.
Qed.

(** X1. Two generation calls in a row on the same date get consecutive
    numbers: after a call that returned a request numbered [n], the allocator
    hands out [n + 1]. *)
Theorem generation_numbers_consecutive env o prd suite rc w w' g used :
  _run_generate env o prd suite rc w = (w', Return (Generated g)) ->
  mapM PyStr.int (run_suffixes ("RUN-" ++ today env ++ "-") w) = Some used ->
  gen_request_id g = "RUN-" ++ today env ++ "-" ++ PyStr.format_03d (next_after used)
  /\ allocate_run_id (today env) w'
     = (w', Return ("RUN-" ++ today env ++ "-"
                    ++ PyStr.format_03d (next_after used + 1))).
Proof.
  intros H Hused. apply generate_inv in H.
  destruct H as (text & id & input & result & -> & Hid & Hfresh & _ & _ & -> & ->).
  apply allocate_run_id_inv in Hid as [_ Hid]. rewrite Hused in Hid.
  injection Hid as ->. split; [done|].
  set (n := next_after used) in *.
  set (prefix := "RUN-" ++ today env ++ "-") in *.
  set (id := "RUN-" ++ today env ++ "-" ++ PyStr.format_03d n) in *.
  assert (id = prefix ++ PyStr.format_03d n) as Hidp
    by (unfold id, prefix; by rewrite !PyStrFacts.app_assoc).
  match goal with |- allocate_run_id _ ?w1 = _ => set (w' := w1) end.
  assert (forall s, s ∈ run_suffixes prefix w' ->
            s = PyStr.format_03d n \/ s ∈ run_suffixes prefix w) as Hsplit.
  { intros s (name & d & Hl & Hp & Hd & ->)%elem_of_run_suffixes.
    unfold w' in Hl. cbn in Hl.
    destruct (decide (id = name)) as [<-|Hne].
    - left. by rewrite Hidp, PyStrFacts.drop_app.
    - right. rewrite lookup_insert_ne in Hl by done.
      apply elem_of_run_suffixes. by exists name, d. }
  assert (PyStr.format_03d n ∈ run_suffixes prefix w') as Hnew.
  { apply elem_of_run_suffixes. eexists id, _. split_and!.
    - unfold w'. cbn. by rewrite lookup_insert_eq.
    - rewrite Hidp. apply PyStrFacts.startswith_app.
    - rewrite Hidp, PyStrFacts.drop_app. apply PyStrFacts.isdigit_format_03d.
    - by rewrite Hidp, PyStrFacts.drop_app. }
  destruct (ints_total (run_suffixes prefix w')) as [used' Hused'].
  { intros s [->|Hs]%Hsplit.
    - rewrite PyStrFacts.int_format_03d. by eexists.
    - destruct (ints_member _ _ _ Hused Hs) as (k & -> & _). by eexists. }
  assert (next_after used' = (n + 1)%N) as Hnext.
  { apply (next_after_extended used); [done | |].
    - apply (elem_of_ints _ _ _ Hused'). exists (PyStr.format_03d n).
      split; [done | apply PyStrFacts.int_format_03d].
    - intros k (s & Hs & Hk)%(elem_of_ints _ _ _ Hused').
      apply Hsplit in Hs as [->|Hs].
      + left. rewrite PyStrFacts.int_format_03d in Hk. congruence.
      + right. apply (elem_of_ints _ _ _ Hused). by exists s. }
  unfold allocate_run_id, ints, mbind, M_bind, get, mret, M_ret.
  fold prefix. rewrite Hused'. by rewrite Hnext.
Qed.

(** X2. Two review calls in a row on the same date get consecutive numbers
    when the first one was persisted where the scan looks: after a call that
    returned a revision numbered [n] for a known run whose [request_id] is a
    single path component, so that the revision went into the sub-directory
    of that name, the allocator hands out [n + 1]. *)
Theorem revision_numbers_consecutive env o msg ca log w w' out arts run_id n :
  _run_review env o msg ca log w = (w', Return out) ->
  resolved ca w arts ->
  run_known arts run_id ->
  single_component run_id = true ->
  allocate_rev_seq (today env) w = (w, Return n) ->
  rev_request_id out = "REV-" ++ today env ++ "-" ++ PyStr.format_03d n
  /\ allocate_rev_seq (today env) w' = (w', Return (n + 1)%N).
Proof.
  intros H Hres Hknown _ Hn. apply review_inv in H.
  destruct H as (message & arts' & n' & i & r & -> & Hres' & Hn' & _ & _ & Hout & Hw).
  rewrite (resolved_unique _ _ _ _ Hres' Hres) in *. clear Hres'.
  assert (n' = n) as -> by congruence. clear Hn'.
  split; [by rewrite Hout|].
  destruct Hw as [(run_id' & Hknown' & Hfile & Hw) | [Hunknown _]];
    [|by destruct (Hunknown run_id)].
  rewrite (run_known_unique _ _ _ Hknown' Hknown) in *. clear Hknown'.
  apply allocate_rev_seq_inv in Hn as [_ Hn].
  destruct (mapM _ _) as [used|] eqn:Hused; [|done]. injection Hn as Hn.
  set (prefix := "REV-" ++ today env ++ "-") in *.
  assert (rev_request_id out = prefix ++ PyStr.format_03d n) as Hidp.
  { rewrite Hout. cbn. unfold prefix. by rewrite !PyStrFacts.app_assoc. }
  assert (exists d', entries w' !! run_id = Some (EDir d')
                     /\ revision_request_json d' = Some (DocRevision out)
                     /\ forall name, name <> run_id ->
                          entries w' !! name = entries w !! name)
    as (d' & Hl' & Hd' & Hother).
  { destruct (plan_intent (intent out)).
    - destruct Hw as (p & _ & ->). eexists. cbn. rewrite lookup_insert_eq.
      split_and!; [done | done |]. intros name Hne. by rewrite lookup_insert_ne.
    - subst w'. eexists. cbn. rewrite lookup_insert_eq.
      split_and!; [done | done |]. intros name Hne. by rewrite lookup_insert_ne. }
  clear Hw.
  assert (forall s, s ∈ rev_suffixes prefix w' ->
            s = PyStr.format_03d n \/ s ∈ rev_suffixes prefix w) as Hsplit.
  { intros s (name & d & doc & rid & Hl & Hdoc & Hrid & Hp & Hd & ->)%elem_of_rev_suffixes.
    destruct (decide (name = run_id)) as [->|Hne].
    - left. rewrite Hl' in Hl. injection Hl as <-. rewrite Hd' in Hdoc.
      injection Hdoc as <-. cbn in Hrid. injection Hrid as <-.
      by rewrite Hidp, PyStrFacts.drop_app.
    - right. rewrite (Hother name Hne) in Hl.
      apply elem_of_rev_suffixes. by exists name, d, doc, rid. }
  assert (PyStr.format_03d n ∈ rev_suffixes prefix w') as Hnew.
  { apply elem_of_rev_suffixes.
    exists run_id, d', (DocRevision out), (rev_request_id out). split_and!; try done.
    - rewrite Hidp. apply PyStrFacts.startswith_app.
    - rewrite Hidp, PyStrFacts.drop_app. apply PyStrFacts.isdigit_format_03d.
    - by rewrite Hidp, PyStrFacts.drop_app. }
  destruct (ints_total (rev_suffixes prefix w')) as [used' Hused'].
  { intros s [->|Hs]%Hsplit.
    - rewrite PyStrFacts.int_format_03d. by eexists.
    - destruct (ints_member _ _ _ Hused Hs) as (k & -> & _). by eexists. }
  assert (next_after used' = (n + 1)%N) as Hnext.
  { apply (next_after_extended used); [done | |].
    - apply (elem_of_ints _ _ _ Hused'). exists (PyStr.format_03d n).
      split; [done | apply PyStrFacts.int_format_03d].
    - intros k (s & Hs & Hk)%(elem_of_ints _ _ _ Hused').
      apply Hsplit in Hs as [->|Hs].
      + left. rewrite PyStrFacts.int_format_03d in Hk. congruence.
      + right. apply (elem_of_ints _ _ _ Hused). by exists s. }
  unfold allocate_rev_seq, ints, mbind, M_bind, get, mret, M_ret.
  fold prefix. rewrite Hused'. by rewrite Hnext.
Qed.

(** ** Error paths *)

Lemma strip_nonempty (s : string) :
  PyStr.strip s <> EmptyString ->
  negb (PyStr.truthy s) || negb (PyStr.truthy (PyStr.strip s)) = false.
Proof.
  intros Hs. destruct s as [|c s]; [done|].
  destruct (PyStr.strip (String c s)); [done | reflexivity].
Qed.

(** X3. A review call whose message is empty or made of whitespace only
    raises [ValueError] at once: the state is the one it was given, so nothing
    was written and no call of the model was traced. *)
Theorem review_blank_message_raises env o msg ca log w :
  whitespace_only msg ->
  _run_review env o (Some msg) ca log w = (w, Raise ValueError).
Proof.
  intros Hws. unfold _run_review.
  rewrite (PyStrFacts.strip_whitespace msg Hws). by rewrite orb_true_r.
Qed.

(** X4. A review call without an explicit artifact set raises
    [RuntimeError] when there is no [.current_run] pointer, and leaves the
    state as it was. *)
Theorem review_no_active_run env o msg log w :
  PyStr.strip msg <> EmptyString ->
  current_run w = None ->
  _run_review env o (Some msg) None log w = (w, Raise RuntimeError).
Proof.
  intros Hmsg Hptr. unfold _run_review. rewrite (strip_nonempty msg Hmsg).
  unfold load_active, mbind, M_bind, get, raise. cbn. by rewrite Hptr.
Qed.

(** X5. A review call without an explicit artifact set raises
    [FileNotFoundError] when the pointer, stripped, is a single path
    component that names no run directory holding a
    [generation_request.json], and leaves the state as it was. *)
Theorem review_active_run_incomplete env o msg log w content :
  PyStr.strip msg <> EmptyString ->
  current_run w = Some content ->
  single_component (PyStr.strip content) = true ->
  (forall d, entries w !! PyStr.strip content = Some (EDir d) ->
             generation_request_json d = None) ->
  _run_review env o (Some msg) None log w = (w, Raise FileNotFoundError).
Proof.
  intros Hmsg Hptr _ Hnone. unfold _run_review. rewrite (strip_nonempty msg Hmsg).
  unfold load_active, mbind, M_bind, get, raise. cbn. rewrite Hptr.
  destruct (entries w !! PyStr.strip content) as [[|d]|] eqn:Hl; try done.
  by rewrite (Hnone d eq_refl).
Qed.

Lemma _get_llm_missing env w :
  OPENAI_API_KEY env = None \/ OPENAI_API_KEY env = Some EmptyString ->
  _get_llm env w = (w, Raise EnvironmentError).
Proof. unfold _get_llm. by intros [->| ->]. Qed.

(** X6. A generation call made without an API key (missing or empty) on a
    document that is not blank raises [EnvironmentError] after it has created
    the run directory: when the identifier the allocator returns is not the
    name of a regular file, no entry had that name, the new directory holds
    the source document only, every other entry and the pointer are as
    before, and the model was not called. *)
Theorem generate_missing_key env o text suite rc w id :
  PyStr.strip text <> EmptyString ->
  OPENAI_API_KEY env = None \/ OPENAI_API_KEY env = Some EmptyString ->
  allocate_run_id (today env) w = (w, Return id) ->
  entries w !! id <> Some EFile ->
  exists w',
    _run_generate env o (Some text) suite rc w = (w', Raise EnvironmentError)
    /\ entries w !! id = None
    /\ entries w' !! id
       = Some (EDir {| prd_md := Some text; generation_request_json := None;
                       revision_request_json := None; execution_plan_json := None |})
    /\ (forall name, name <> id -> entries w' !! name = entries w !! name)
    /\ current_run w' = current_run w
    /\ new_events w w' = [Mkdir id; WriteFile id "prd.md"].
Proof.
  intros Htext Hkey Hid Hfile.
  assert (entries w !! id = None) as Hnone.
  { destruct (entries w !! id) as [[|d]|] eqn:Hl; [done| |done].
    by destruct (allocate_run_id_fresh _ _ _ _ d Hid). }
  unfold _run_generate. rewrite (strip_nonempty text Htext).
  unfold mbind, M_bind. rewrite Hid.
  unfold mkdir, write_file, mbind, M_bind, get, put_runs, emit. cbn.
  rewrite Hnone. cbn. rewrite lookup_insert_eq. cbn.
  rewrite (_get_llm_missing _ _ Hkey). eexists. split; [reflexivity|].
  split_and!; try done.
  - cbn. rewrite insert_insert_eq. by rewrite lookup_insert_eq.
  - intros name Hne. cbn. rewrite insert_insert_eq. by rewrite lookup_insert_ne.
  - apply new_events_app. cbn. by rewrite <- app_assoc.
Qed.

(** X7. A review call made without an API key (missing or empty), with a
    message that is not blank, an artifact set (given, or loaded through the
    pointer) and a scan of the revisions that succeeds, raises
    [EnvironmentError] and leaves the state as it was: no model call was
    made and nothing was written. *)
Theorem review_missing_key env o msg ca log w arts n :
  PyStr.strip msg <> EmptyString ->
  OPENAI_API_KEY env = None \/ OPENAI_API_KEY env = Some EmptyString ->
  resolved ca w arts ->
  allocate_rev_seq (today env) w = (w, Return n) ->
  _run_review env o (Some msg) ca log w = (w, Raise EnvironmentError).
Proof.
  intros Hmsg Hkey Hres Hn.
  unfold _run_review. rewrite (strip_nonempty msg Hmsg).
  unfold mbind, M_bind.
  assert (match ca with Some a => mret a | None => load_active end w = (w, Return arts))
    as -> by (destruct ca; cbn in Hres; [by subst|done]).
  rewrite Hn. by rewrite (_get_llm_missing _ _ Hkey).
Qed.

(** ** What a call leaves untouched *)

(** X8. A generation call, whatever its outcome, changes no entry that was
    in the base directory: existing runs and files stay as they were (the new
    run gets a name no entry had). The pointer changes only when the call
    returns a request. *)
Theorem generate_keeps_existing_entries env o prd suite rc w w' res :
  _run_generate env o prd suite rc w = (w', res) ->
  (forall name e, entries w !! name = Some e -> entries w' !! name = Some e)
  /\ (forall e, res = Raise e -> current_run w' = current_run w)
  /\ (forall error mode, res = Return (ErrorObject error mode) -> w' = w).
Proof.
  intros H. exec H.
  all: try (exfalso; eapply allocate_run_id_fresh; eauto; fail).
  all: split_and!; try done.
  all: intros name e' Hl; cbn; rewrite ?insert_insert_eq;
       rewrite lookup_insert_ne; [done | intros ->; congruence].
Qed.

(** X9. A review call, whatever its outcome, leaves the pointer as it was,
    leaves every regular file of the base directory in place, and keeps every
    run directory with its source document and its generation request. *)
Theorem review_keeps_runs env o msg ca log w w' res :
  _run_review env o msg ca log w = (w', res) ->
  current_run w' = current_run w
  /\ (forall name, entries w !! name = Some EFile -> entries w' !! name = Some EFile)
  /\ (forall name d, entries w !! name = Some (EDir d) ->
        exists d', entries w' !! name = Some (EDir d')
                   /\ prd_md d' = prd_md d
                   /\ generation_request_json d' = generation_request_json d).
Proof.
  intros H. exec H.
  all: split_and!; try done.
  all: try (intros name d0 Hl; by exists d0).
  all: unfold entries in *; cbn.
  all: try (intros name Hl; rewrite ?insert_insert_eq;
            rewrite lookup_insert_ne; [done | intros ->; congruence]).
  all: intros name d0 Hl; rewrite ?insert_insert_eq;
       match goal with
       | |- context [<[?k := _]> _ !! name] =>
           destruct (decide (k = name)) as [->|Hne];
           [ rewrite lookup_insert_eq; eexists; split; [done|];
             cbn; split; congruence
           | rewrite lookup_insert_ne by done; by exists d0 ]
       end.
Qed.

(** ** What a review call persists *)

(** X10. When a review call returns for a known run, the
    [revision_request.json] of that run holds exactly the returned request,
    pinned identifier included, and the write was traced. *)
Theorem review_persists_returned env o msg ca log w w' out arts run_id :
  _run_review env o msg ca log w = (w', Return out) ->
  resolved ca w arts ->
  run_known arts run_id ->
  exists d',
    entries w' !! run_id = Some (EDir d')
    /\ revision_request_json d' = Some (DocRevision out)
    /\ prd_md d' = prd_md (dir_at w run_id)
    /\ generation_request_json d' = generation_request_json (dir_at w run_id)
    /\ WriteFile run_id "revision_request.json" ∈ new_events w w'.
Proof.
  intros H Hres Hknown. apply review_inv in H.
  destruct H as (message & arts' & n & i & r & -> & Hres' & _ & _ & _ & _ & Hw).
  rewrite (resolved_unique _ _ _ _ Hres' Hres) in *.
  destruct Hw as [(run_id' & Hknown' & _ & Hw) | [Hunknown _]];
    [|by destruct (Hunknown run_id)].
  rewrite (run_known_unique _ _ _ Hknown' Hknown) in *.
  destruct (plan_intent (intent out)).
  - destruct Hw as (p & _ & ->). eexists. cbn. rewrite lookup_insert_eq.
    split_and!; try done. erewrite new_events_app by reflexivity.
    do 3 apply list_elem_of_further. apply list_elem_of_here.
  - subst w'. eexists. cbn. rewrite lookup_insert_eq.
    split_and!; try done. erewrite new_events_app by reflexivity.
    do 3 apply list_elem_of_further. apply list_elem_of_here.
Qed.

(** X11. When a review call returns and the artifact set has no
    [request_id], or an empty one, nothing is persisted: the base directory
    and the pointer are as before and the only effects are the two model
    calls. The revision exists in the returned value only, and the allocator
    hands out its number again. *)
Theorem review_unknown_run_persists_nothing env o msg ca log w w' out arts :
  _run_review env o msg ca log w = (w', Return out) ->
  resolved ca w arts ->
  (art_request_id arts = None \/ art_request_id arts = Some EmptyString) ->
  runs_base w' = runs_base w
  /\ current_run w' = current_run w
  /\ new_events w w' = [Invoke IntentChain; Invoke RevisionChain]
  /\ exists n,
       rev_request_id out = "REV-" ++ today env ++ "-" ++ PyStr.format_03d n
       /\ allocate_rev_seq (today env) w' = (w', Return n).
Proof.
  intros H Hres Hnone. apply review_inv in H.
  destruct H as (message & arts' & n & i & r & -> & Hres' & Hn & _ & _ & Hout & Hw).
  rewrite (resolved_unique _ _ _ _ Hres' Hres) in *.
  destruct Hw as [(run_id & [Hid Htruthy] & _) | [_ ->]].
  { destruct Hnone as [Hnone|Hnone]; rewrite Hnone in Hid; [done|].
    injection Hid as <-. done. }
  split_and!; try done.
  - by apply new_events_app.
  - exists n. split; [by rewrite Hout|].
    apply allocate_rev_seq_inv in Hn as [_ Hn].
    unfold allocate_rev_seq, ints, mbind, M_bind, get, mret, M_ret, raise.
    unfold rev_suffixes in *. cbn.
    destruct (mapM _ _); [|done]. by injection Hn as ->.
Qed.

(** X12. The number of a returned revision is free among the revisions
    the scan reads: no [revision_request.json] that lay directly in a
    sub-directory of the base directory before the call records the returned
    [request_id]. *)
Theorem review_id_fresh env o msg ca log w w' out name d doc :
  _run_review env o msg ca log w = (w', Return out) ->
  entries w !! name = Some (EDir d) ->
  revision_request_json d = Some doc ->
  doc_request_id doc <> Some (rev_request_id out).
Proof.
  intros H Hl Hdoc. apply review_inv in H.
  destruct H as (message & arts & n & i & r & _ & _ & Hn & _ & _ & -> & _).
  cbn. by eapply allocate_rev_seq_fresh.
Qed.

(** X13. A review call that returns with intent "explain" for a known run
    writes the revision and leaves the run's [execution_plan.json] as it was:
    a plan written for an earlier revision stays on disk beside the new
    revision request. *)
Theorem explain_keeps_existing_plan env o msg ca log w w' out arts run_id :
  _run_review env o msg ca log w = (w', Return out) ->
  resolved ca w arts ->
  run_known arts run_id ->
  intent out = explain ->
  exists d',
    entries w' !! run_id = Some (EDir d')
    /\ revision_request_json d' = Some (DocRevision out)
    /\ execution_plan_json d' = execution_plan_json (dir_at w run_id)
    /\ new_events w w' = [Invoke IntentChain; Invoke RevisionChain; Mkdir run_id;
                          WriteFile run_id "revision_request.json"].
Proof.
  intros H Hres Hknown Hexplain. apply review_inv in H.
  destruct H as (message & arts' & n & i & r & -> & Hres' & _ & _ & _ & _ & Hw).
  rewrite (resolved_unique _ _ _ _ Hres' Hres) in *.
  destruct Hw as [(run_id' & Hknown' & _ & Hw) | [Hunknown _]];
    [|by destruct (Hunknown run_id)].
  rewrite (run_known_unique _ _ _ Hknown' Hknown) in *.
  rewrite Hexplain in Hw. cbn in Hw. subst w'.
  eexists. cbn. rewrite lookup_insert_eq. split_and!; try done.
  by apply new_events_app.
Qed.

(** X14. After a generation call returned a request, the pointer leads
    back to it: auto-loading the artifact set gives the [request_id] of that
    request, with no requirement and no test-case identifier in it, since a
    generation request holds none. *)
Theorem generate_then_autoload env o prd suite rc w w' g :
  _run_generate env o prd suite rc w = (w', Return (Generated g)) ->
  load_active w'
  = (w', Return {| art_request_id := Some (gen_request_id g);
                   art_req_ids := []; art_tc_ids := [] |}).
Proof.
  intros H. apply generate_inv in H.
  destruct H as (text & id & input & result & -> & Hid & _ & _ & _ & -> & ->).
  apply allocate_run_id_inv in Hid as [_ Hid].
  destruct (mapM _ _) as [used|]; [|done]. injection Hid as ->.
  unfold load_active, mbind, M_bind, get, mret, M_ret. cbn.
  rewrite strip_run_id. by rewrite lookup_insert_eq.
Qed.

(** ** Entries that stop a call *)

Lemma ints_fail suffixes s :
  s ∈ suffixes -> PyStr.int s = None -> mapM PyStr.int suffixes = None.
Proof.
  intros Hin Hs. destruct (mapM PyStr.int suffixes) as [used|] eqn:Hused; [|done].
  destruct (ints_member _ _ _ Hused Hin) as (k & Hk & _). congruence.
Qed.

(** X15. A run directory of the day whose suffix passes [isdigit] without
    being a decimal numeral (a superscript digit) makes every generation call
    with a document raise [ValueError] during the scan, before anything is
    written. *)
Theorem generate_nondecimal_suffix_raises env o text suite rc w suffix d :
  PyStr.strip text <> EmptyString ->
  entries w !! (("RUN-" ++ today env ++ "-") ++ suffix) = Some (EDir d) ->
  PyStr.isdigit suffix = true ->
  PyStr.int suffix = None ->
  _run_generate env o (Some text) suite rc w = (w, Raise ValueError).
Proof.
  intros Htext Hl Hd Hint. unfold _run_generate. rewrite (strip_nonempty text Htext).
  unfold allocate_run_id, ints, mbind, M_bind, get, raise. 
  rewrite (ints_fail _ suffix); [done | | done].
  pose proof (run_suffix_listed ("RUN-" ++ today env ++ "-") w _ d Hl) as Hin.
  rewrite PyStrFacts.drop_app in Hin.
  apply Hin; [apply PyStrFacts.startswith_app | done].
Qed.

(** X16. A revision artifact whose [request_id] has the day's prefix and a
    suffix that passes [isdigit] without being a decimal numeral makes every
    review call with a message and an artifact set raise [ValueError] during
    the scan, before any model call. *)
Theorem review_nondecimal_suffix_raises env o msg arts log w name d doc suffix :
  PyStr.strip msg <> EmptyString ->
  entries w !! name = Some (EDir d) ->
  revision_request_json d = Some doc ->
  doc_request_id doc = Some (("REV-" ++ today env ++ "-") ++ suffix) ->
  PyStr.isdigit suffix = true ->
  PyStr.int suffix = None ->
  _run_review env o (Some msg) (Some arts) log w = (w, Raise ValueError).
Proof.
  intros Hmsg Hl Hdoc Hrid Hd Hint. unfold _run_review.
  rewrite (strip_nonempty msg Hmsg).
  unfold allocate_rev_seq, ints, mbind, M_bind, get, raise, mret, M_ret.
  rewrite (ints_fail _ suffix); [done | | done].
  pose proof (rev_suffix_listed ("REV-" ++ today env ++ "-") w name d doc _ Hl Hdoc Hrid)
    as Hin.
  rewrite PyStrFacts.drop_app in Hin.
  apply Hin; [apply PyStrFacts.startswith_app | done].
Qed.

(** X17. A regular file that has the name of the next run stops a
    generation call with [FileExistsError] and nothing is written: the scan
    passes over the file, so the allocator picks its name. *)
Theorem generate_blocked_by_file env o text suite rc w id :
  PyStr.strip text <> EmptyString ->
  allocate_run_id (today env) w = (w, Return id) ->
  entries w !! id = Some EFile ->
  _run_generate env o (Some text) suite rc w = (w, Raise FileExistsError).
Proof.
  intros Htext Hid Hl. unfold _run_generate. rewrite (strip_nonempty text Htext).
  unfold mbind, M_bind. rewrite Hid.
  unfold mkdir, mbind, M_bind, get, raise. by rewrite Hl.
Qed.

(** X18. When a review call raises [FileExistsError], the artifact set
    names a regular file as its run; both model calls were made, and nothing
    is persisted or returned: the base directory and the pointer are as
    before. *)
Theorem review_blocked_by_file env o msg ca log w w' :
  _run_review env o msg ca log w = (w', Raise FileExistsError) ->
  runs_base w' = runs_base w
  /\ current_run w' = current_run w
  /\ new_events w w' = [Invoke IntentChain; Invoke RevisionChain]
  /\ exists arts run_id,
       resolved ca w arts /\ run_known arts run_id
       /\ entries w !! run_id = Some EFile.
Proof.
  intros H. exec H.
  all: try (match goal with
            | H : allocate_rev_seq _ _ = (_, Raise _) |- _ =>
                apply allocate_rev_seq_raises in H; discriminate
            end).
  all: try match goal with
       | H : load_active _ = (_, Raise FileExistsError) |- _ =>
           exfalso; revert H; unfold load_active, mbind, M_bind, get, raise, mret, M_ret;
           cbn; repeat case_match; congruence
       end.
  all: split_and!; try done.
  all: try (apply new_events_app; cbn; by rewrite <- app_assoc).
  all: eexists _, _; split_and!; [ | split; eassumption | eassumption]; done.
Qed.

(** X19. When the model's call for the execution plan fails, the review
    call raises after the revision was persisted: the run holds the new
    [revision_request.json], its [execution_plan.json] is the one it had
    before, and the revision is not returned. *)
Theorem plan_failure_keeps_revision env o msg ca log w w' :
  _run_review env o msg ca log w = (w', Raise OracleFailure) ->
  Invoke PlanChain ∈ new_events w w' ->
  exists arts run_id out d',
    resolved ca w arts /\ run_known arts run_id
    /\ plan_intent (intent out) = true
    /\ ep_chain o (requested_changes out) = None
    /\ entries w' !! run_id = Some (EDir d')
    /\ revision_request_json d' = Some (DocRevision out)
    /\ execution_plan_json d' = execution_plan_json (dir_at w run_id)
    /\ new_events w w' = [Invoke IntentChain; Invoke RevisionChain; Mkdir run_id;
                          WriteFile run_id "revision_request.json"; Invoke PlanChain].
Proof.
  intros H Hin. exec H.
  all: try (match goal with
            | H : allocate_rev_seq _ _ = (_, Raise _) |- _ =>
                apply allocate_rev_seq_raises in H; discriminate
            end).
  all: try match goal with
       | H : load_active _ = (_, Raise OracleFailure) |- _ =>
           by destruct (proj2 (load_active_inv _ _ _ H))
       end.
  all: try (exfalso; erewrite new_events_app in Hin
              by (cbn; rewrite <- ?app_assoc; reflexivity);
            repeat (apply elem_of_cons in Hin as [Hin|Hin]; [discriminate|]);
            by apply elem_of_nil in Hin).
  all: unfold dir_at, entries in *.
  all: eexists _, _, (pin_revision _ _), _; split_and!;
       [ first [done | eassumption]
       | split; eassumption
       | cbn; eassumption
       | cbn; eassumption
       | cbn; rewrite ?insert_insert_eq; apply lookup_insert_eq
       | reflexivity
       | cbn; first [done | match goal with
                            | H : default ∅ _ !! _ = _ |- _ => by rewrite H
                            end]
       | ].
  all: apply new_events_app; cbn; by rewrite <- !app_assoc.
Qed.

(** ** The shape of a run identifier *)

Lemma decimal_app (a b : string) :
  is_Some (NilEmpty.uint_of_string a) -> is_Some (NilEmpty.uint_of_string b) ->
  is_Some (NilEmpty.uint_of_string (a ++ b)).
Proof.
  intros Ha Hb. induction a as [|c a IH]; [done|].
  change (String c a ++ b) with (String c (a ++ b)). cbn in *.
  destruct (NilEmpty.uint_of_string a) as [da|]; [|by destruct Ha].
  destruct IH as [dab ->]; [by eexists|].
  revert Ha. destruct c as [[] [] [] [] [] [] [] []]; cbn; intros [? [=]]; by eexists.
Qed.

Lemma decimal_of_N n : is_Some (NilEmpty.uint_of_string (PyStr.of_N n)).
Proof. unfold PyStr.of_N. rewrite NilEmpty.usu. by eexists. Qed.

Lemma decimal_zeros k : is_Some (NilEmpty.uint_of_string (PyStr.zeros k)).
Proof.
  induction k as [|k [d Hd]]; [by eexists|]. cbn. rewrite Hd. by eexists.
Qed.

Lemma length_year n :
  (1000 <= n <= 9999)%N -> String.length (PyStr.of_N n) = 4%nat.
Proof.
  intros Hn.
  assert (forallb (fun k => String.length (PyStr.of_N (N.of_nat k)) =? 4)%nat
            (seq 1000 (4500 + 4500)) = true) as Hall by (vm_compute; reflexivity).
  rewrite forallb_forall in Hall.
  specialize (Hall (N.to_nat n)). rewrite N2Nat.id in Hall.
  apply Nat.eqb_eq. apply Hall. apply List.in_seq. lia.
Qed.

Lemma length_format_02d n :
  (n < 100)%N -> String.length (format_02d n) = 2%nat.
Proof.
  intros Hn.
  assert (forallb (fun k => String.length (format_02d (N.of_nat k)) =? 2)%nat
            (seq 0 100) = true) as Hall by (vm_compute; reflexivity).
  rewrite forallb_forall in Hall.
  specialize (Hall (N.to_nat n)). rewrite N2Nat.id in Hall.
  apply Nat.eqb_eq. apply Hall. apply List.in_seq. lia.
Qed.

(** X20. For a date with a four-digit year, [_today] is eight decimal
    digits; a generation call made on that date that returns a request gives
    it the identifier RUN-, the eight digits, a dash and the number, which
    has three digits below 1000: sixteen characters in all. *)
Theorem request_id_shape env o prd suite rc w w' g d :
  today env = _today d ->
  (1000 <= d_year d <= 9999)%N ->
  (1 <= d_month d <= 12)%N ->
  (1 <= d_day d <= 31)%N ->
  _run_generate env o prd suite rc w = (w', Return (Generated g)) ->
  String.length (_today d) = 8%nat
  /\ is_Some (PyStr.int (_today d))
  /\ exists n,
       gen_request_id g = "RUN-" ++ _today d ++ "-" ++ PyStr.format_03d n
       /\ PyStr.int (PyStr.format_03d n) = Some n
       /\ ((n < 1000)%N ->
           String.length (PyStr.format_03d n) = 3%nat
           /\ String.length (gen_request_id g) = 16%nat).
Proof.
  intros Htoday Hy Hm Hd H.
  assert (String.length (_today d) = 8%nat) as Hlen.
  { unfold _today. rewrite !PyStrFacts.length_app, (length_year _ Hy).
    rewrite !length_format_02d by lia. done. }
  split; [done|]. split.
  - unfold PyStr.int. destruct (_today d) eqn:E; [done|]. rewrite <- E.
    destruct (decimal_app (PyStr.of_N (d_year d))
                (format_02d (d_month d) ++ format_02d (d_day d))) as [u Hu].
    + apply decimal_of_N.
    + unfold format_02d.
      repeat first [apply decimal_of_N | apply decimal_zeros | apply decimal_app].
    + unfold _today. rewrite Hu. by eexists.
  - apply generate_inv in H.
    destruct H as (text & id & input & result & -> & Hid & _ & _ & _ & -> & _).
    apply allocate_run_id_inv in Hid as [_ Hid].
    destruct (mapM _ _) as [used|]; [|done]. injection Hid as ->.
    exists (next_after used). rewrite Htoday. split; [done|].
    split; [apply PyStrFacts.int_format_03d|]. intros Hn.
    pose proof (PyStrFacts.length_format_03d_small _ Hn) as H3. split; [done|].
    cbn [gen_request_id pin_generation].
    rewrite !PyStrFacts.length_app, Hlen, H3. done.
Qed.

(** X21. The model of a generation call is shown what the call goes on to
    pin and store: the document as stored, the path that becomes
    [prd_source], and the date of the identifier. The duplicate-scan flag it
    is told is the lower-cased text of the caller's override, "true" when
    there is none. *)
Theorem generate_prompt_inputs env o prd suite rc w w' g :
  _run_generate env o prd suite rc w = (w', Return (Generated g)) ->
  exists input result,
    generation_chain o input = Some result
    /\ Some (in_prd_text input) = prd
    /\ in_prd_source input = prd_source g
    /\ in_prd_source input = "runs/" ++ gen_request_id g ++ "/prd.md"
    /\ in_today input = today env
    /\ in_include_duplicate_scan input
       = PyStr.lower (py_str (default (PyBool true) (rc !! "include_duplicate_scan")))
    /\ (rc !! "include_duplicate_scan" = None ->
        in_include_duplicate_scan input = "true")
    /\ g = pin_generation (gen_request_id g) (prd_source g) result.
Proof.
  intros H. exec H.
  all: eexists _, _; split_and!; try eassumption; try done.
  all: by intros ->.
Qed.

(** ** Runs on the sample data *)

Lemma generation_numbers_consecutive_witness :
  exists w' g,
    _run_generate sample_env (revising revise None) (Some "doc") None ∅ empty_disk
    = (w', Return (Generated g))
    /\ gen_request_id g
       = "RUN-" ++ today sample_env ++ "-" ++ PyStr.format_03d (next_after [])
    /\ allocate_run_id (today sample_env) w'
       = (w', Return ("RUN-" ++ today sample_env ++ "-"
                      ++ PyStr.format_03d (next_after [] + 1))).
Proof.
  eexists _, _. split; [vm_compute; reflexivity|].
  eapply (generation_numbers_consecutive sample_env (revising revise None)
           (Some "doc") None ∅ empty_disk); vm_compute; reflexivity.
Defined.

Lemma revision_numbers_consecutive_witness :
  exists w' out,
    _run_review sample_env (revising revise (Some (plan_answer [])))
      (Some "Make TC-004 P1") (Some REVIEW_ARTIFACTS) [] empty_disk
    = (w', Return out)
    /\ rev_request_id out = "REV-" ++ today sample_env ++ "-" ++ PyStr.format_03d 1
    /\ allocate_rev_seq (today sample_env) w' = (w', Return (1 + 1)%N).
Proof.
  eexists _, _. split; [vm_compute; reflexivity|].
  eapply (revision_numbers_consecutive sample_env (revising revise (Some (plan_answer [])))
           (Some "Make TC-004 P1") (Some REVIEW_ARTIFACTS) [] empty_disk _ _
           REVIEW_ARTIFACTS "RUN-20261104-001" 1%N).
  - vm_compute. reflexivity.
  - reflexivity.
  - split; reflexivity.
  - reflexivity.
  - vm_compute. reflexivity.
Defined.

Lemma review_blank_message_raises_witness :
  whitespace_only " "
  /\ _run_review sample_env (revising revise None) (Some " ") None [] empty_disk
     = (empty_disk, Raise ValueError).
Proof.
  split; [reflexivity|].
  apply (review_blank_message_raises sample_env (revising revise None) " ").
  reflexivity.
Defined.

Lemma review_no_active_run_witness :
  _run_review sample_env (revising revise None) (Some "Why is TC-003 P2?") None []
    (disk_with_runs ["RUN-20261104-001"])
  = (disk_with_runs ["RUN-20261104-001"], Raise RuntimeError).
Proof.
  apply (review_no_active_run sample_env (revising revise None) "Why is TC-003 P2?").
  - vm_compute. discriminate.
  - reflexivity.
Defined.

Lemma review_active_run_incomplete_witness :
  _run_review sample_env (revising revise None) (Some "Why is TC-003 P2?") None []
    (disk_with_pointer ("RUN-20261104-001" ++ newline))
  = (disk_with_pointer ("RUN-20261104-001" ++ newline), Raise FileNotFoundError).
Proof.
  apply (review_active_run_incomplete sample_env (revising revise None)
           "Why is TC-003 P2?" [] (disk_with_pointer ("RUN-20261104-001" ++ newline))
           ("RUN-20261104-001" ++ newline)).
  - vm_compute. discriminate.
  - reflexivity.
  - vm_compute. reflexivity.
  - intros d Hl. vm_compute in Hl. discriminate.
Defined.

Lemma generate_missing_key_witness :
  exists w',
    _run_generate keyless_env (revising revise None) (Some "doc") None ∅
      (disk_with_runs ["RUN-20261104-001"])
    = (w', Raise EnvironmentError)
    /\ entries (disk_with_runs ["RUN-20261104-001"]) !! "RUN-20261104-002" = None
    /\ entries w' !! "RUN-20261104-002"
       = Some (EDir {| prd_md := Some "doc"; generation_request_json := None;
                       revision_request_json := None; execution_plan_json := None |})
    /\ (forall name, name <> "RUN-20261104-002" ->
          entries w' !! name = entries (disk_with_runs ["RUN-20261104-001"]) !! name)
    /\ current_run w' = current_run (disk_with_runs ["RUN-20261104-001"])
    /\ new_events (disk_with_runs ["RUN-20261104-001"]) w'
       = [Mkdir "RUN-20261104-002"; WriteFile "RUN-20261104-002" "prd.md"].
Proof.
  apply (generate_missing_key keyless_env (revising revise None) "doc" None ∅
           (disk_with_runs ["RUN-20261104-001"]) "RUN-20261104-002").
  - vm_compute. discriminate.
  - by left.
  - vm_compute. reflexivity.
  - vm_compute. discriminate.
Defined.

Lemma review_missing_key_witness :
  _run_review keyless_env (revising revise None) (Some "Why is TC-003 P2?")
    (Some REVIEW_ARTIFACTS) [] (disk_with_runs ["RUN-20261104-001"])
  = (disk_with_runs ["RUN-20261104-001"], Raise EnvironmentError).
Proof.
  apply (review_missing_key keyless_env (revising revise None) "Why is TC-003 P2?"
           (Some REVIEW_ARTIFACTS) [] (disk_with_runs ["RUN-20261104-001"])
           REVIEW_ARTIFACTS 1%N).
  - vm_compute. discriminate.
  - by left.
  - reflexivity.
  - vm_compute. reflexivity.
Defined.

Lemma generate_keeps_existing_entries_witness :
  exists w' res,
    _run_generate sample_env (revising revise None) (Some "doc") None ∅
      (disk_with_runs ["RUN-20261104-001"])
    = (w', res)
    /\ (forall name e,
          entries (disk_with_runs ["RUN-20261104-001"]) !! name = Some e ->
          entries w' !! name = Some e)
    /\ (forall e, res = Raise e ->
                  current_run w' = current_run (disk_with_runs ["RUN-20261104-001"]))
    /\ (forall error mode, res = Return (ErrorObject error mode) ->
                           w' = disk_with_runs ["RUN-20261104-001"]).
Proof.
  eexists _, _. split; [vm_compute; reflexivity|].
  eapply (generate_keeps_existing_entries sample_env (revising revise None)
           (Some "doc") None ∅ (disk_with_runs ["RUN-20261104-001"])).
  vm_compute. reflexivity.
Defined.

Lemma review_keeps_runs_witness :
  exists w' res,
    _run_review sample_env (revising revise (Some (plan_answer [])))
      (Some "Make TC-004 P1") (Some REVIEW_ARTIFACTS) []
      (disk_with_runs ["RUN-20261104-001"])
    = (w', res)
    /\ current_run w' = current_run (disk_with_runs ["RUN-20261104-001"])
    /\ (forall name,
          entries (disk_with_runs ["RUN-20261104-001"]) !! name = Some EFile ->
          entries w' !! name = Some EFile)
    /\ (forall name d,
          entries (disk_with_runs ["RUN-20261104-001"]) !! name = Some (EDir d) ->
          exists d', entries w' !! name = Some (EDir d')
                     /\ prd_md d' = prd_md d
                     /\ generation_request_json d' = generation_request_json d).
Proof.
  eexists _, _. split; [vm_compute; reflexivity|].
  eapply (review_keeps_runs sample_env (revising revise (Some (plan_answer [])))
           (Some "Make TC-004 P1") (Some REVIEW_ARTIFACTS) []
           (disk_with_runs ["RUN-20261104-001"])).
  vm_compute. reflexivity.
Defined.

Lemma review_persists_returned_witness :
  exists w' out,
    _run_review sample_env (revising explain None)
      (Some "Why is TC-003 P2?") (Some REVIEW_ARTIFACTS) []
      (disk_with_runs ["RUN-20261104-001"])
    = (w', Return out)
    /\ exists d',
         entries w' !! "RUN-20261104-001" = Some (EDir d')
         /\ revision_request_json d' = Some (DocRevision out)
         /\ prd_md d' = prd_md (dir_at (disk_with_runs ["RUN-20261104-001"])
                                  "RUN-20261104-001")
         /\ generation_request_json d'
            = generation_request_json (dir_at (disk_with_runs ["RUN-20261104-001"])
                                         "RUN-20261104-001")
         /\ WriteFile "RUN-20261104-001" "revision_request.json"
              ∈ new_events (disk_with_runs ["RUN-20261104-001"]) w'.
Proof.
  eexists _, _. split; [vm_compute; reflexivity|].
  eapply (review_persists_returned sample_env (revising explain None)
            (Some "Why is TC-003 P2?") (Some REVIEW_ARTIFACTS) []
            (disk_with_runs ["RUN-20261104-001"]) _ _ REVIEW_ARTIFACTS).
  - vm_compute. reflexivity.
  - reflexivity.
  - split; reflexivity.
Defined.

Lemma review_unknown_run_persists_nothing_witness :
  exists w' out,
    _run_review sample_env (revising revise (Some (plan_answer [])))
      (Some "Make TC-004 P1") (Some SAMPLE_ARTIFACTS) [] empty_disk
    = (w', Return out)
    /\ runs_base w' = runs_base empty_disk
    /\ current_run w' = current_run empty_disk
    /\ new_events empty_disk w' = [Invoke IntentChain; Invoke RevisionChain]
    /\ exists n,
         rev_request_id out = "REV-" ++ today sample_env ++ "-" ++ PyStr.format_03d n
         /\ allocate_rev_seq (today sample_env) w' = (w', Return n).
Proof.
  eexists _, _. split; [vm_compute; reflexivity|].
  eapply (review_unknown_run_persists_nothing sample_env
           (revising revise (Some (plan_answer [])))
           (Some "Make TC-004 P1") (Some SAMPLE_ARTIFACTS) [] empty_disk _ _
           SAMPLE_ARTIFACTS).
  - vm_compute. reflexivity.
  - reflexivity.
  - by left.
Defined.

Lemma review_id_fresh_witness :
  exists w' out d doc,
    _run_review sample_env (revising explain None)
      (Some "Why is TC-003 P2?") (Some REVIEW_ARTIFACTS) []
      (disk_with_revision "RUN-20261104-001" "REV-20261104-001")
    = (w', Return out)
    /\ entries (disk_with_revision "RUN-20261104-001" "REV-20261104-001")
         !! "RUN-20261104-001" = Some (EDir d)
    /\ revision_request_json d = Some doc
    /\ doc_request_id doc = Some "REV-20261104-001"
    /\ rev_request_id out = "REV-20261104-002"
    /\ doc_request_id doc <> Some (rev_request_id out).
Proof.
  eexists _, _, _, _. split; [vm_compute; reflexivity|].
  split; [vm_compute; reflexivity|]. split; [reflexivity|].
  split; [reflexivity|]. split; [reflexivity|].
  eapply (review_id_fresh sample_env (revising explain None)
            (Some "Why is TC-003 P2?") (Some REVIEW_ARTIFACTS) []
            (disk_with_revision "RUN-20261104-001" "REV-20261104-001")
            _ _ "RUN-20261104-001").
  - vm_compute. reflexivity.
  - vm_compute. reflexivity.
  - reflexivity.
Defined.

Lemma explain_keeps_existing_plan_witness :
  exists w' out,
    _run_review sample_env (revising explain None)
      (Some "Why is TC-003 P2?") (Some REVIEW_ARTIFACTS) []
      (_run_review sample_env (revising revise (Some (plan_answer [])))
         (Some "Make TC-004 P1") (Some REVIEW_ARTIFACTS) [] empty_disk).1
    = (w', Return out)
    /\ is_Some (execution_plan_json
                  (dir_at (_run_review sample_env
                             (revising revise (Some (plan_answer [])))
                             (Some "Make TC-004 P1") (Some REVIEW_ARTIFACTS) []
                             empty_disk).1 "RUN-20261104-001"))
    /\ exists d',
         entries w' !! "RUN-20261104-001" = Some (EDir d')
         /\ revision_request_json d' = Some (DocRevision out)
         /\ execution_plan_json d'
            = execution_plan_json
                (dir_at (_run_review sample_env
                           (revising revise (Some (plan_answer [])))
                           (Some "Make TC-004 P1") (Some REVIEW_ARTIFACTS) []
                           empty_disk).1 "RUN-20261104-001")
         /\ new_events
              (_run_review sample_env (revising revise (Some (plan_answer [])))
                 (Some "Make TC-004 P1") (Some REVIEW_ARTIFACTS) [] empty_disk).1 w'
            = [Invoke IntentChain; Invoke RevisionChain; Mkdir "RUN-20261104-001";
               WriteFile "RUN-20261104-001" "revision_request.json"].
Proof.
  eexists _, _. split; [vm_compute; reflexivity|].
  split; [vm_compute; by eexists|].
  eapply (explain_keeps_existing_plan sample_env (revising explain None)
            (Some "Why is TC-003 P2?") (Some REVIEW_ARTIFACTS) []
            (_run_review sample_env (revising revise (Some (plan_answer [])))
               (Some "Make TC-004 P1") (Some REVIEW_ARTIFACTS) [] empty_disk).1
            _ _ REVIEW_ARTIFACTS).
  - vm_compute. reflexivity.
  - reflexivity.
  - split; reflexivity.
  - reflexivity.
Defined.

Lemma generate_then_autoload_witness :
  exists w' g,
    _run_generate sample_env (revising revise None) (Some "doc") None ∅ empty_disk
    = (w', Return (Generated g))
    /\ load_active w'
       = (w', Return {| art_request_id := Some (gen_request_id g);
                        art_req_ids := []; art_tc_ids := [] |}).
Proof.
  eexists _, _. split; [vm_compute; reflexivity|].
  eapply (generate_then_autoload sample_env (revising revise None) (Some "doc") None ∅
            empty_disk).
  vm_compute. reflexivity.
Defined.

Lemma generate_nondecimal_suffix_raises_witness :
  PyStr.isdigit superscript_two = true
  /\ PyStr.int superscript_two = None
  /\ _run_generate sample_env (revising revise None) (Some "doc") None ∅
       (disk_with_runs [("RUN-" ++ today sample_env ++ "-") ++ superscript_two])
     = (disk_with_runs [("RUN-" ++ today sample_env ++ "-") ++ superscript_two],
        Raise ValueError).
Proof.
  split; [reflexivity|]. split; [reflexivity|].
  eapply (generate_nondecimal_suffix_raises sample_env (revising revise None) "doc"
            None ∅
            (disk_with_runs [("RUN-" ++ today sample_env ++ "-") ++ superscript_two])
            superscript_two).
  - vm_compute. discriminate.
  - vm_compute. reflexivity.
  - reflexivity.
  - reflexivity.
Defined.

Lemma review_nondecimal_suffix_raises_witness :
  _run_review sample_env (revising revise None) (Some "Why is TC-003 P2?")
    (Some REVIEW_ARTIFACTS) []
    (disk_with_revision "RUN-20261104-001"
       (("REV-" ++ today sample_env ++ "-") ++ superscript_two))
  = (disk_with_revision "RUN-20261104-001"
       (("REV-" ++ today sample_env ++ "-") ++ superscript_two),
     Raise ValueError).
Proof.
  eapply (review_nondecimal_suffix_raises sample_env (revising revise None)
            "Why is TC-003 P2?" REVIEW_ARTIFACTS []
            (disk_with_revision "RUN-20261104-001"
               (("REV-" ++ today sample_env ++ "-") ++ superscript_two))
            "RUN-20261104-001" _ _ superscript_two).
  - vm_compute. discriminate.
  - vm_compute. reflexivity.
  - reflexivity.
  - reflexivity.
  - reflexivity.
  - reflexivity.
Defined.

Lemma generate_blocked_by_file_witness :
  _run_generate sample_env (revising revise None) (Some "doc") None ∅
    (disk_with_file "RUN-20261104-001")
  = (disk_with_file "RUN-20261104-001", Raise FileExistsError).
Proof.
  eapply (generate_blocked_by_file sample_env (revising revise None) "doc" None ∅
            (disk_with_file "RUN-20261104-001") "RUN-20261104-001").
  - vm_compute. discriminate.
  - vm_compute. reflexivity.
  - vm_compute. reflexivity.
Defined.

Lemma review_blocked_by_file_witness :
  exists w',
    _run_review sample_env (revising revise (Some (plan_answer [])))
      (Some "Make TC-004 P1") (Some REVIEW_ARTIFACTS) []
      (disk_with_file "RUN-20261104-001")
    = (w', Raise FileExistsError)
    /\ runs_base w' = runs_base (disk_with_file "RUN-20261104-001")
    /\ current_run w' = current_run (disk_with_file "RUN-20261104-001")
    /\ new_events (disk_with_file "RUN-20261104-001") w'
       = [Invoke IntentChain; Invoke RevisionChain]
    /\ exists arts run_id,
         resolved (Some REVIEW_ARTIFACTS) (disk_with_file "RUN-20261104-001") arts
         /\ run_known arts run_id
         /\ entries (disk_with_file "RUN-20261104-001") !! run_id = Some EFile.
Proof.
  eexists. split; [vm_compute; reflexivity|].
  eapply (review_blocked_by_file sample_env (revising revise (Some (plan_answer [])))
            (Some "Make TC-004 P1") (Some REVIEW_ARTIFACTS) []
            (disk_with_file "RUN-20261104-001")).
  vm_compute. reflexivity.
Defined.

Lemma plan_failure_keeps_revision_witness :
  exists w',
    _run_review sample_env (revising revise None)
      (Some "Make TC-004 P1") (Some REVIEW_ARTIFACTS) [] empty_disk
    = (w', Raise OracleFailure)
    /\ exists arts run_id out d',
         resolved (Some REVIEW_ARTIFACTS) empty_disk arts /\ run_known arts run_id
         /\ plan_intent (intent out) = true
         /\ ep_chain (revising revise None) (requested_changes out) = None
         /\ entries w' !! run_id = Some (EDir d')
         /\ revision_request_json d' = Some (DocRevision out)
         /\ execution_plan_json d' = execution_plan_json (dir_at empty_disk run_id)
         /\ new_events empty_disk w'
            = [Invoke IntentChain; Invoke RevisionChain; Mkdir run_id;
               WriteFile run_id "revision_request.json"; Invoke PlanChain].
Proof.
  eexists. split; [vm_compute; reflexivity|].
  eapply (plan_failure_keeps_revision sample_env (revising revise None)
            (Some "Make TC-004 P1") (Some REVIEW_ARTIFACTS) [] empty_disk).
  - vm_compute. reflexivity.
  - vm_compute. do 4 apply list_elem_of_further. apply list_elem_of_here.
Defined.

Lemma request_id_shape_witness :
  exists w' g,
    _run_generate sample_env (revising revise None) (Some "doc") None ∅ empty_disk
    = (w', Return (Generated g))
    /\ _today sample_date = "20261104"
    /\ String.length (_today sample_date) = 8%nat
    /\ is_Some (PyStr.int (_today sample_date))
    /\ exists n,
         gen_request_id g = "RUN-" ++ _today sample_date ++ "-" ++ PyStr.format_03d n
         /\ PyStr.int (PyStr.format_03d n) = Some n
         /\ ((n < 1000)%N ->
             String.length (PyStr.format_03d n) = 3%nat
             /\ String.length (gen_request_id g) = 16%nat).
Proof.
  eexists _, _. split; [vm_compute; reflexivity|]. split; [reflexivity|].
  eapply (request_id_shape sample_env (revising revise None) (Some "doc") None ∅
            empty_disk _ _ sample_date).
  - reflexivity.
  - cbn. lia.
  - cbn. lia.
  - cbn. lia.
  - vm_compute. reflexivity.
Defined.

Lemma generate_prompt_inputs_witness :
  exists w' g,
    _run_generate sample_env (revising revise None) (Some "doc") None
      {[ "include_duplicate_scan" := PyBool false ]} empty_disk
    = (w', Return (Generated g))
    /\ exists input result,
         generation_chain (revising revise None) input = Some result
         /\ Some (in_prd_text input) = Some "doc"
         /\ in_prd_source input = prd_source g
         /\ in_prd_source input = "runs/" ++ gen_request_id g ++ "/prd.md"
         /\ in_today input = today sample_env
         /\ in_include_duplicate_scan input
            = PyStr.lower
                (py_str (default (PyBool true)
                           (({[ "include_duplicate_scan" := PyBool false ]}
                             : gmap string PyVal) !! "include_duplicate_scan")))
         /\ ((({[ "include_duplicate_scan" := PyBool false ]} : gmap string PyVal)
              !! "include_duplicate_scan") = None ->
             in_include_duplicate_scan input = "true")
         /\ g = pin_generation (gen_request_id g) (prd_source g) result.
Proof.
  eexists _, _. split; [vm_compute; reflexivity|].
  eapply (generate_prompt_inputs sample_env (revising revise None) (Some "doc") None
            {[ "include_duplicate_scan" := PyBool false ]} empty_disk).
  vm_compute. reflexivity.
Defined.
